(** * User service of a12n-server: users, passwords and TOTP

    A shallow embedding of the user service module (the functions
    [findAll], [findById], [findByIdentity], [save], [createPassword],
    [validatePassword], [validateTotp], [recordToModel] and
    [isExistingUser]) over an explicit model of the three tables the
    module queries, followed by the properties of the credential core.

    Conventions.
    - A JavaScript [number] that holds a row id, a type tag or a unix
      time is an integer of [Z].
    - An [async] function returns its settled promise: [Resolve v] or
      [Reject e].
    - A table is the list of its rows in store order; [INSERT] appends,
      and a [SELECT] without [ORDER BY] returns the matching rows in that
      order.
    - The store answers every statement: a lost connection or a violated
      constraint is not part of the model.
    - [bcrypt] and [otplib] are libraries outside the module: they are the
      operations of the classes [Bcrypt] and [Otplib], and each of their
      calls may resolve or reject. *)

From Stdlib Require Import ZArith List String Ascii Bool Lia.
From Stdlib Require Import DecimalString DecimalZ DecimalPos.
Import ListNotations.

Local Open Scope string_scope.
Local Open Scope Z_scope.

(** ** Promises *)

Inductive error : Type :=
| NotFound (message : string)     (* NotFound of @curveball/http-errors *)
| LibraryError (message : string) (* anything thrown inside bcrypt or otplib *).

Inductive Promise (A : Type) : Type :=
| Resolve (value : A)
| Reject (reason : error).

Arguments Resolve {A} value.
Arguments Reject {A} reason.

(** [await p; k]: a rejection leaves the function at once. *)
Definition await {A B : Type} (p : Promise A) (k : A -> Promise B) : Promise B :=
  match p with
  | Resolve v => k v
  | Reject e => Reject e
  end.

Notation "'let_await' x ':=' p 'in' k" := (await p (fun x => k))
  (at level 10, x name, p at level 100, k at level 200).

(** ** Values *)

(** A [Date] is its time value, in milliseconds since the epoch.  The
    unix times of the store are far inside the range of time values. *)
Record Date : Type := new_Date { getTime : Z }.

(** [Buffer]: the bytes of a BLOB column. *)
Definition Buffer : Type := list Byte.byte.

(** [buf.toString('utf-8')] and the bytes the store keeps for a string
    parameter.  A string is the sequence of its UTF-8 bytes. *)
Definition Buffer_toString (b : Buffer) : string := string_of_list_byte b.
Definition Buffer_from (s : string) : Buffer := list_byte_of_string s.

(** ['...' + id]: the decimal numeral of an integer. *)
Definition number_toString (n : Z) : string :=
  NilZero.string_of_int (Z.to_int n).

(** ** The tables *)

(** A row of [users]. *)
Module UsersRow.
Record t : Type := Build {
  id : Z;
  identity : string;
  nickname : string;
  created : Z;   (* unix time, seconds *)
  type : Z;
  active : Z
}.
End UsersRow.

(** [UserRecord]: what a [SELECT] of [fieldNames] returns for a row. *)
Module UserRecord.
Record t : Type := Build {
  id : Z;
  identity : string;
  nickname : string;
  created : Z;
  type : Z
}.
End UserRecord.

(** [User | NewUser].  The two are told apart by the presence of [id]
    alone; [created] is a property the object may or may not carry. *)
Module User.
Record t : Type := Build {
  id : option Z;
  identity : string;
  nickname : string;
  created : option Date;
  type : Z
}.
End User.

(** A row of [user_passwords].  The schema is not part of the module:
    [user_id] is taken as a column that admits [NULL], so that every
    [INSERT] of the module is defined. *)
Module PasswordsRow.
Record t : Type := Build {
  user_id : option Z;
  password : Buffer
}.
End PasswordsRow.

(** [PasswordRow]: what [SELECT password] returns for a row. *)
Module PasswordRow.
Record t : Type := Build {
  password : Buffer
}.
End PasswordRow.

(** A row of [user_totp]. *)
Module TotpRow.
Record t : Type := Build {
  user_id : option Z;
  secret : string
}.
End TotpRow.

(** A query parameter: [undefined] is sent as [NULL], here [None]. *)
Definition sql_param : Type := option Z.

(** [column = ?]: a comparison with [NULL] on either side is not true. *)
Definition sql_eq (column : option Z) (param : sql_param) : bool :=
  match column, param with
  | Some c, Some p => c =? p
  | _, _ => false
  end.

(** The store: the three tables, what the module relies on of a schema
    that is not part of it (the [AUTO_INCREMENT] counter of [users.id],
    the default of the column [users.active], and the collation of
    [users.identity], under which [identity = ?] compares two texts), and
    the server clock read by [UNIX_TIMESTAMP()]. *)
Record Database : Type := {
  users : list UsersRow.t;
  user_passwords : list PasswordsRow.t;
  user_totp : list TotpRow.t;
  users_auto_increment : Z;
  users_active_default : Z;
  identity_collation : string -> string -> bool;
  unix_timestamp : Z
}.

Definition fieldNames : list string :=
  ["id"; "identity"; "nickname"; "created"; "type"].

(** A column of a [users] row by its name. *)
Inductive sql_value : Type :=
| SqlInt (n : Z)
| SqlText (s : string).

Definition users_column (r : UsersRow.t) (name : string) : option sql_value :=
  if String.eqb name "id" then Some (SqlInt (UsersRow.id r))
  else if String.eqb name "identity" then Some (SqlText (UsersRow.identity r))
  else if String.eqb name "nickname" then Some (SqlText (UsersRow.nickname r))
  else if String.eqb name "created" then Some (SqlInt (UsersRow.created r))
  else if String.eqb name "type" then Some (SqlInt (UsersRow.type r))
  else if String.eqb name "active" then Some (SqlInt (UsersRow.active r))
  else None.

(** [SELECT <names> FROM users]: the result object of one row, a list of
    the selected columns with their values. *)
Definition select_columns (names : list string) (r : UsersRow.t)
  : list (string * option sql_value) :=
  map (fun name => (name, users_column r name)) names.

(** The result object of a [fieldNames] query read at the type
    [UserRecord]. *)
Definition select_fieldNames (r : UsersRow.t) : UserRecord.t :=
  {| UserRecord.id := UsersRow.id r;
     UserRecord.identity := UsersRow.identity r;
     UserRecord.nickname := UsersRow.nickname r;
     UserRecord.created := UsersRow.created r;
     UserRecord.type := UsersRow.type r |}.

(** The property [name] of a result object. *)
Fixpoint result_get (o : list (string * option sql_value)) (name : string)
  : option sql_value :=
  match o with
  | [] => None
  | (k, v) :: rest => if String.eqb k name then v else result_get rest name
  end.

(** The result object of a query cast to [UserRecord]: every property of
    the type is there, with a value of its type. *)
Definition as_UserRecord (o : list (string * option sql_value))
  : option UserRecord.t :=
  match result_get o "id", result_get o "identity", result_get o "nickname",
        result_get o "created", result_get o "type" with
  | Some (SqlInt i), Some (SqlText e), Some (SqlText n),
    Some (SqlInt c), Some (SqlInt t) =>
      Some {| UserRecord.id := i; UserRecord.identity := e;
              UserRecord.nickname := n; UserRecord.created := c;
              UserRecord.type := t |}
  | _, _, _, _, _ => None
  end.

(** ** The libraries *)

(** [bcrypt.hash(data, rounds)] draws a salt of its own, here its first
    argument; [bcrypt.compare(data, encrypted)]. *)
Class Bcrypt : Type := {
  bcrypt_hash : string -> string -> Z -> Promise string;
  bcrypt_compare : string -> string -> Promise bool
}.

(** [otplib.authenticator.check(token, secret)], at the instant of the
    call: the library reads the clock of the process. *)
Class Otplib : Type := {
  authenticator_check : string -> string -> Promise bool
}.

(** ** The service *)

Definition recordToModel (user : UserRecord.t) : User.t :=
  {| User.id := Some (UserRecord.id user);
     User.identity := UserRecord.identity user;
     User.nickname := UserRecord.nickname user;
     User.created := Some (new_Date (UserRecord.created user * 1000));
     User.type := UserRecord.type user |}.

Definition isExistingUser (user : User.t) : bool :=
  match User.id user with
  | Some _ => true
  | None => false
  end.

(** [SELECT ... FROM users WHERE active = 1] *)
Definition query_users_active (db : Database) : list UserRecord.t :=
  map select_fieldNames
      (filter (fun r => UsersRow.active r =? 1) (users db)).

(** [SELECT ... FROM users WHERE active = 1 AND id = ?] *)
Definition query_users_by_id (db : Database) (id : Z) : list UserRecord.t :=
  map select_fieldNames
      (filter (fun r => (UsersRow.active r =? 1) && (UsersRow.id r =? id))
              (users db)).

(** [SELECT ... FROM users WHERE active = 1 AND identity = ?] *)
Definition query_users_by_identity (db : Database) (identity : string)
  : list UserRecord.t :=
  map select_fieldNames
      (filter (fun r => (UsersRow.active r =? 1)
                        && identity_collation db (UsersRow.identity r) identity)
              (users db)).

Definition findAll (db : Database) : Promise (list User.t) :=
  Resolve (map recordToModel (query_users_active db)).

Definition findById (db : Database) (id : Z) : Promise User.t :=
  match query_users_by_id db id with
  | [user] => Resolve (recordToModel user)
  | _ => Reject (NotFound ("User with id: " ++ number_toString id ++ " not found"))
  end.

Definition findByIdentity (db : Database) (identity : string) : Promise User.t :=
  match query_users_by_identity db identity with
  | [user] => Resolve (recordToModel user)
  | _ => Reject (NotFound ("User with identity: " ++ identity ++ " not found"))
  end.

(** [INSERT INTO users SET ?, created = UNIX_TIMESTAMP()]: the new row and
    the store after it.  [id] comes from the counter, [active] from its
    default. *)
Definition insert_user (db : Database) (identity nickname : string) (type : Z)
  : Z * Database :=
  let insertId := users_auto_increment db in
  let row := {| UsersRow.id := insertId;
                UsersRow.identity := identity;
                UsersRow.nickname := nickname;
                UsersRow.created := unix_timestamp db;
                UsersRow.type := type;
                UsersRow.active := users_active_default db |} in
  (insertId,
   {| users := (users db ++ [row])%list;
      user_passwords := user_passwords db;
      user_totp := user_totp db;
      users_auto_increment := insertId + 1;
      users_active_default := users_active_default db;
      identity_collation := identity_collation db;
      unix_timestamp := unix_timestamp db |}).

(** [UPDATE users SET ? WHERE id = ?] with [identity] and [nickname]. *)
Definition update_user_row (identity nickname : string) (id : sql_param)
  (r : UsersRow.t) : UsersRow.t :=
  if sql_eq (Some (UsersRow.id r)) id then
    {| UsersRow.id := UsersRow.id r;
       UsersRow.identity := identity;
       UsersRow.nickname := nickname;
       UsersRow.created := UsersRow.created r;
       UsersRow.type := UsersRow.type r;
       UsersRow.active := UsersRow.active r |}
  else r.

Definition update_user (db : Database) (identity nickname : string)
  (id : sql_param) : Database :=
  {| users := map (update_user_row identity nickname id) (users db);
     user_passwords := user_passwords db;
     user_totp := user_totp db;
     users_auto_increment := users_auto_increment db;
     users_active_default := users_active_default db;
     identity_collation := identity_collation db;
     unix_timestamp := unix_timestamp db |}.

(** [{ id: insertId, ...user }]: a property of [user] replaces the one
    written before the spread. *)
Definition spread_over_id (insertId : Z) (user : User.t) : User.t :=
  {| User.id := match User.id user with
                | Some id => Some id
                | None => Some insertId
                end;
     User.identity := User.identity user;
     User.nickname := User.nickname user;
     User.created := User.created user;
     User.type := User.type user |}.

Definition save (db : Database) (user : User.t) : Promise (User.t * Database) :=
  if negb (isExistingUser user) then
    let '(insertId, db') :=
      insert_user db (User.identity user) (User.nickname user) (User.type user) in
    Resolve (spread_over_id insertId user, db')
  else
    let db' := update_user db (User.identity user) (User.nickname user)
                           (User.id user) in
    Resolve (user, db').

(** [INSERT INTO user_passwords SET user_id = ?, password = ?] *)
Definition insert_password (db : Database) (user_id : sql_param)
  (password : string) : Database :=
  let row := {| PasswordsRow.user_id := user_id;
                PasswordsRow.password := Buffer_from password |} in
  {| users := users db;
     user_passwords := (user_passwords db ++ [row])%list;
     user_totp := user_totp db;
     users_auto_increment := users_auto_increment db;
     users_active_default := users_active_default db;
     identity_collation := identity_collation db;
     unix_timestamp := unix_timestamp db |}.

(** [SELECT password FROM user_passwords WHERE user_id = ?] *)
Definition query_passwords (db : Database) (user_id : sql_param)
  : list PasswordRow.t :=
  map (fun r => {| PasswordRow.password := PasswordsRow.password r |})
      (filter (fun r => sql_eq (PasswordsRow.user_id r) user_id)
              (user_passwords db)).

(** [SELECT secret FROM user_totp WHERE user_id = ?] *)
Definition query_totp (db : Database) (user_id : sql_param) : list string :=
  map TotpRow.secret
      (filter (fun r => sql_eq (TotpRow.user_id r) user_id) (user_totp db)).

Section Credentials.

Context {bcrypt : Bcrypt} {otplib : Otplib}.

(** [salt] is the salt [bcrypt.hash] draws in this call. *)
Definition createPassword (salt : string) (db : Database) (user : User.t)
  (password : string) : Promise Database :=
  let_await hash := bcrypt_hash salt password 12 in
  Resolve (insert_password db (User.id user) hash).

(** The loop [for (const hash of hashes)]. *)
Fixpoint validatePassword_loop (password : string) (hashes : list Buffer)
  : Promise bool :=
  match hashes with
  | [] => Resolve false
  | hash :: rest =>
      let_await matched := bcrypt_compare password (Buffer_toString hash) in
      if (matched : bool) then Resolve true
      else validatePassword_loop password rest
  end.

Definition validatePassword (db : Database) (user : User.t)
  (password : string) : Promise bool :=
  let result := query_passwords db (User.id user) in
  let hashes := map PasswordRow.password result in
  validatePassword_loop password hashes.

Definition validateTotp (db : Database) (user : User.t) (token : string)
  : Promise bool :=
  let result := query_totp db (User.id user) in
  match result with
  | [] => Resolve false (* Not set up *)
  | secret :: _ => authenticator_check token secret
  end.

End Credentials.

(** * Specification vocabulary *)

(** ** Rows that match a key *)

Section MatchingRows.

Context {A : Type}.
Variable P : A -> Prop.

(** [r] is the one row of [rows] with [P]. *)
Definition unique_match (rows : list A) (r : A) : Prop :=
  exists before after,
    rows = (before ++ r :: after)%list /\ P r /\
    Forall (fun x => ~ P x) before /\ Forall (fun x => ~ P x) after.

Definition no_match (rows : list A) : Prop :=
  Forall (fun x => ~ P x) rows.

(** Two rows of [rows], at different places, have [P]. *)
Definition several_match (rows : list A) : Prop :=
  exists a r1 b r2 c,
    rows = (a ++ r1 :: b ++ r2 :: c)%list /\ P r1 /\ P r2.

End MatchingRows.

Definition active_with_id (id : Z) (r : UsersRow.t) : Prop :=
  UsersRow.active r = 1 /\ UsersRow.id r = id.

Definition active_with_identity (db : Database) (identity : string)
  (r : UsersRow.t) : Prop :=
  UsersRow.active r = 1 /\
  identity_collation db (UsersRow.identity r) identity = true.

(** The errors of the two lookups. *)
Definition not_found_id (id : Z) : error :=
  NotFound ("User with id: " ++ number_toString id ++ " not found").

Definition not_found_identity (identity : string) : error :=
  NotFound ("User with identity: " ++ identity ++ " not found").

(** ** The contracts of the libraries *)

(** What the service needs of [bcrypt] on strings: [compare] answers, and
    it accepts the data a hash was made of. *)
Class BcryptContract (bcrypt : Bcrypt) : Prop := {
  compare_resolves : forall data encrypted,
    exists b, bcrypt_compare data encrypted = Resolve b;
  compare_hash : forall salt data rounds encrypted,
    bcrypt_hash salt data rounds = Resolve encrypted ->
    bcrypt_compare data encrypted = Resolve true
}.

(** ** A store and libraries to run the service on *)

(** A stand-in for [bcrypt] that keeps the data readable; its [compare]
    fails on an empty hash. *)
Definition plain_hash (salt data : string) (rounds : Z) : Promise string :=
  Resolve ("$2b$" ++ data).

Definition plain_compare (data encrypted : string) : Promise bool :=
  if String.eqb encrypted "" then
    Reject (LibraryError "data and hash arguments required")
  else Resolve (String.eqb encrypted ("$2b$" ++ data)).

Definition plain_bcrypt : Bcrypt :=
  {| bcrypt_hash := plain_hash; bcrypt_compare := plain_compare |}.

(** The same with a [compare] that answers on every hash. *)
Definition total_compare (data encrypted : string) : Promise bool :=
  Resolve (String.eqb encrypted ("$2b$" ++ data)).

Definition total_bcrypt : Bcrypt :=
  {| bcrypt_hash := plain_hash; bcrypt_compare := total_compare |}.

Fixpoint all_digits (s : string) : bool :=
  match s with
  | EmptyString => true
  | String c rest =>
      (48 <=? Z.of_nat (nat_of_ascii c)) && (Z.of_nat (nat_of_ascii c) <=? 57)
      && all_digits rest
  end.

(** A stand-in for [otplib]: the token of a secret is the secret, a token
    that is not a numeral matches nothing, and no check can be made
    against an empty secret. *)
Definition digits_check (token secret : string) : Promise bool :=
  if negb (all_digits token) then Resolve false
  else if String.eqb secret "" then Reject (LibraryError "no secret")
  else Resolve (String.eqb token secret).

Definition digits_otplib : Otplib :=
  {| authenticator_check := digits_check |}.

Definition alice_row : UsersRow.t :=
  {| UsersRow.id := 1; UsersRow.identity := "alice@example.com";
     UsersRow.nickname := "Alice"; UsersRow.created := 1600000000;
     UsersRow.type := 1; UsersRow.active := 1 |}.

Definition bob_row : UsersRow.t :=
  {| UsersRow.id := 2; UsersRow.identity := "bob@example.com";
     UsersRow.nickname := "Bob"; UsersRow.created := 1600000500;
     UsersRow.type := 1; UsersRow.active := 0 |}.

Definition example_db : Database :=
  {| users := [alice_row; bob_row];
     user_passwords := [];
     user_totp := [];
     users_auto_increment := 3;
     users_active_default := 1;
     identity_collation := String.eqb;
     unix_timestamp := 1700000000 |}.

Definition alice : User.t := recordToModel (select_fieldNames alice_row).

(** A new user as the data model has it: no [id] and no [created]. *)
Definition new_carol : User.t :=
  {| User.id := None; User.identity := "carol@example.com";
     User.nickname := "Carol"; User.created := None; User.type := 1 |}.

(** A new user whose object carries a [created] of its own. *)
Definition new_dave : User.t :=
  {| User.id := None; User.identity := "dave@example.com";
     User.nickname := "Dave"; User.created := Some (new_Date 0);
     User.type := 1 |}.

(** Every id of [users] is below the counter of the table. *)
Definition ids_below_counter (db : Database) : Prop :=
  Forall (fun r => UsersRow.id r < users_auto_increment db) (users db).

(** What [UPDATE users SET identity, nickname WHERE id = ?] may do to a
    row: the row with the id gets the two values, any other row stays as
    it is, and no row changes in another column. *)
Definition updated_row (id : Z) (identity nickname : string)
  (r r' : UsersRow.t) : Prop :=
  UsersRow.id r' = UsersRow.id r /\
  UsersRow.created r' = UsersRow.created r /\
  UsersRow.type r' = UsersRow.type r /\
  UsersRow.active r' = UsersRow.active r /\
  (UsersRow.id r = id ->
   UsersRow.identity r' = identity /\ UsersRow.nickname r' = nickname) /\
  (UsersRow.id r <> id -> r' = r).

(** Alice with a new identity and nickname, and with fields that differ
    from her row in [created] and [type] too. *)
Definition alicia : User.t :=
  {| User.id := Some 1; User.identity := "alice@new.com";
     User.nickname := "Alicia"; User.created := Some (new_Date 5);
     User.type := 7 |}.

(** The credentials of a user: the hashes of the rows of
    [user_passwords] with the user's id, in store order, as text. *)
Fixpoint credentials_of (user_id : sql_param) (rows : list PasswordsRow.t)
  : list string :=
  match rows with
  | [] => []
  | r :: rest =>
      if sql_eq (PasswordsRow.user_id r) user_id
      then Buffer_toString (PasswordsRow.password r) :: credentials_of user_id rest
      else credentials_of user_id rest
  end.

(** [data] is not the data of the hash [h]. *)
Definition mismatch {bcrypt : Bcrypt} (data h : string) : Prop :=
  bcrypt_compare data h = Resolve false.

(** A store where Alice has three password rows, the last with an
    empty hash, and Bob one. *)
Definition passwords_db : Database :=
  {| users := [alice_row; bob_row];
     user_passwords :=
       [ {| PasswordsRow.user_id := Some 1;
            PasswordsRow.password := Buffer_from "$2b$OldPass" |};
         {| PasswordsRow.user_id := Some 2;
            PasswordsRow.password := Buffer_from "$2b$BobPass" |};
         {| PasswordsRow.user_id := Some 1;
            PasswordsRow.password := Buffer_from "$2b$Secr3tPass!" |};
         {| PasswordsRow.user_id := Some 1;
            PasswordsRow.password := Buffer_from "" |} ];
     user_totp := [];
     users_auto_increment := 3;
     users_active_default := 1;
     identity_collation := String.eqb;
     unix_timestamp := 1700000000 |}.

(** The row [r] of [user_totp] belongs to [user]. *)
Definition secret_of (user : User.t) (r : TotpRow.t) : Prop :=
  exists id, User.id user = Some id /\ TotpRow.user_id r = Some id.

(** A store where Alice has two rows in [user_totp], the second with an
    empty secret, after a row of Bob. *)
Definition totp_db : Database :=
  {| users := [alice_row; bob_row];
     user_passwords := [];
     user_totp :=
       [ {| TotpRow.user_id := Some 2; TotpRow.secret := "222222" |};
         {| TotpRow.user_id := Some 1; TotpRow.secret := "123456" |};
         {| TotpRow.user_id := Some 1; TotpRow.secret := "" |} ];
     users_auto_increment := 3;
     users_active_default := 1;
     identity_collation := String.eqb;
     unix_timestamp := 1700000000 |}.

(** [u] is the model of the row [r]: the five columns of [fieldNames],
    with [created] turned from seconds into the time value of a [Date]. *)
Definition models (r : UsersRow.t) (u : User.t) : Prop :=
  User.id u = Some (UsersRow.id r) /\
  User.identity u = UsersRow.identity r /\
  User.nickname u = UsersRow.nickname r /\
  (exists d, User.created u = Some d /\ getTime d = UsersRow.created r * 1000) /\
  User.type u = UsersRow.type r.

(** * The home document *)

(** The default export of [home/formats/hal]: the HAL resource of the
    home page.  [getSetting] belongs to the server settings, outside the
    module, and [PrincipalStats] is a type the function only passes on. *)

(** A link object: [href] and [title], and for some links a [type] or
    [hints: { allow }]. *)
Module Link.
Record t : Type := Build {
  href : string;
  title : string;
  type : option string;
  hints_allow : option (list string)
}.
End Link.

(** An object with string keys: its own properties in the order of their
    creation.  [o[key] = v] replaces the value of a property that is
    there and adds the property at the end otherwise. *)
Fixpoint object_set {V : Type} (o : list (string * V)) (key : string) (v : V)
  : list (string * V) :=
  match o with
  | [] => [(key, v)]
  | (k, w) :: rest =>
      if String.eqb k key then (k, v) :: rest
      else (k, w) :: object_set rest key v
  end.

Fixpoint object_get {V : Type} (o : list (string * V)) (key : string)
  : option V :=
  match o with
  | [] => None
  | (k, w) :: rest => if String.eqb k key then Some w else object_get rest key
  end.

Record HalResource (Stats : Type) : Type := {
  _links : list (string * Link.t);
  version : string;
  stats : Stats
}.

Arguments _links {Stats} _.
Arguments version {Stats} _.
Arguments stats {Stats} _.

(** [getSetting(name)] read as a condition: whether the value of the
    setting is truthy. *)
Class ServerSettings : Type := {
  getSetting : string -> bool
}.

(** ['/user/' + authenticatedUser.id]: the text of the id, and
    [undefined] for an object without one. *)
Definition id_toString (id : option Z) : string :=
  match id with
  | Some n => number_toString n
  | None => "undefined"
  end.

Definition plain_link (href title : string) : Link.t :=
  {| Link.href := href; Link.title := title;
     Link.type := None; Link.hints_allow := None |}.

Definition typed_link (href title type : string) : Link.t :=
  {| Link.href := href; Link.title := title;
     Link.type := Some type; Link.hints_allow := None |}.

Definition post_link (href title : string) : Link.t :=
  {| Link.href := href; Link.title := title;
     Link.type := None; Link.hints_allow := Some ["POST"] |}.

Definition set_links {Stats : Type} (result : HalResource Stats)
  (key : string) (link : Link.t) : HalResource Stats :=
  {| _links := object_set (_links result) key link;
     version := version result;
     stats := stats result |}.

Definition hal {Stats : Type} {settings : ServerSettings}
  (version : string) (authenticatedUser : User.t) (isAdmin : bool)
  (stats : Stats) : HalResource Stats :=
  let result :=
    {| _links :=
         [ ("self", plain_link "/" "Home");
           ("authenticated-as",
            plain_link ("/user/" ++ id_toString (User.id authenticatedUser))
                       (User.nickname authenticatedUser));
           ("change-password", plain_link "/changepassword" "Change password");
           ("app-collection", plain_link "/app" "List of apps");
           ("user-collection", plain_link "/user" "List of users");
           ("group-collection", plain_link "/group" "List of groups");
           ("logout", plain_link "/logout" "Log out");
           ("privilege-collection",
            plain_link "/privilege" "List of available privileges");
           ("authorize",
            typed_link "/authorize" "OAuth2 authorize endpoint" "text/html");
           ("token", post_link "/token" "OAuth2 Token Endpoint");
           ("introspect", post_link "/introspect" "OAuth2 Introspection Endpoint");
           ("schema-collection",
            plain_link "/schema" "List of JSON schemas for this API");
           ("oauth_server_metadata_uri",
            plain_link "/.well-known/oauth-authorization-server"
                       "OAuth 2.0 Authorization Server Metadata") ];
       version := version;
       stats := stats |} in
  let result :=
    if getSetting "registration.enabled" then
      set_links result "registration"
        (typed_link "/register" "Create a new user account" "text/html")
    else result in
  let result :=
    if isAdmin then
      set_links result "exchange-one-time-token"
        (plain_link "/exchange-one-time-token"
           "Exchange a one-time token for a Access and Refresh token")
    else result in
  result.

(** The relations of the links every home document has, in their order. *)
Definition base_relations : list string :=
  [ "self"; "authenticated-as"; "change-password"; "app-collection";
    "user-collection"; "group-collection"; "logout"; "privilege-collection";
    "authorize"; "token"; "introspect"; "schema-collection";
    "oauth_server_metadata_uri" ].

(** Settings with registration enabled, and with every setting off. *)
Definition registration_open : ServerSettings :=
  {| getSetting := fun name => String.eqb name "registration.enabled" |}.

Definition registration_closed : ServerSettings :=
  {| getSetting := fun _ => false |}.

(** [users.id] is a key: no two rows share an id, and the counter of the
    table is above every id in use. *)
Definition primary_key (db : Database) : Prop :=
  NoDup (map UsersRow.id (users db)) /\ ids_below_counter db.

(** Bob as an object of type [User]; his row is not active. *)
Definition bob : User.t := recordToModel (select_fieldNames bob_row).

(** The model of the row that [save] inserts for [user] into [db]. *)
Definition inserted_model (db : Database) (user : User.t) : User.t :=
  {| User.id := Some (users_auto_increment db);
     User.identity := User.identity user;
     User.nickname := User.nickname user;
     User.created := Some (new_Date (unix_timestamp db * 1000));
     User.type := User.type user |}.

(** [u] with a new identity and nickname when its id is [id]. *)
Definition renamed (id : Z) (identity nickname : string) (u : User.t) : User.t :=
  match User.id u with
  | Some i =>
      if i =? id then
        {| User.id := User.id u;
           User.identity := identity;
           User.nickname := nickname;
           User.created := User.created u;
           User.type := User.type u |}
      else u
  | None => u
  end.

(** A user with an id that no row of [example_db] has. *)
Definition ghost : User.t :=
  {| User.id := Some 9999; User.identity := "ghost@example.com";
     User.nickname := "Ghost"; User.created := None; User.type := 1 |}.

(** The password rows of Alice in [passwords_db] that hold a hash, in
    the opposite order, the first one twice. *)
Definition shuffled_db : Database :=
  {| users := [alice_row; bob_row];
     user_passwords :=
       [ {| PasswordsRow.user_id := Some 1;
            PasswordsRow.password := Buffer_from "$2b$Secr3tPass!" |};
         {| PasswordsRow.user_id := Some 1;
            PasswordsRow.password := Buffer_from "$2b$OldPass" |};
         {| PasswordsRow.user_id := Some 1;
            PasswordsRow.password := Buffer_from "$2b$Secr3tPass!" |} ];
     user_totp := [];
     users_auto_increment := 3;
     users_active_default := 1;
     identity_collation := String.eqb;
     unix_timestamp := 1700000000 |}.

(** The same rows once each, in the order of their creation. *)
Definition ordered_db : Database :=
  {| users := [alice_row; bob_row];
     user_passwords :=
       [ {| PasswordsRow.user_id := Some 1;
            PasswordsRow.password := Buffer_from "$2b$OldPass" |};
         {| PasswordsRow.user_id := Some 1;
            PasswordsRow.password := Buffer_from "$2b$Secr3tPass!" |} ];
     user_totp := [];
     users_auto_increment := 3;
     users_active_default := 1;
     identity_collation := String.eqb;
     unix_timestamp := 1700000000 |}.

(** * Properties *)

(** ** Rows that match a key *)

Section Matching.

Context {A : Type}.
Variable P : A -> Prop.
Variable p : A -> bool.
Hypothesis p_spec : forall x, p x = true <-> P x.

Lemma filter_no_match (rows : list A) :
  no_match P rows -> filter p rows = [].
Proof.
  induction 1 as [|x rows Hx _ IH]; simpl; [reflexivity|].
  destruct (p x) eqn:E; [|exact IH].
  apply p_spec in E. contradiction.
Qed.

Lemma filter_unique_match (rows : list A) (r : A) :
  unique_match P rows r -> filter p rows = [r].
Proof.
  intros (before & after & -> & Hr & Hb & Ha).
  rewrite filter_app. simpl.
  rewrite (filter_no_match before Hb), (filter_no_match after Ha).
  apply p_spec in Hr. rewrite Hr. reflexivity.
Qed.

Lemma filter_several_match (rows : list A) :
  several_match P rows -> exists x y rest, filter p rows = x :: y :: rest.
Proof.
  intros (a & r1 & b & r2 & c & -> & H1 & H2).
  apply p_spec in H1. apply p_spec in H2.
  induction a as [|x a IH]; simpl.
  - rewrite H1. rewrite filter_app. simpl. rewrite H2.
    destruct (filter p b) as [|y rest].
    + exists r1, r2, (filter p c). reflexivity.
    + exists r1, y, (rest ++ r2 :: filter p c)%list. reflexivity.
  - destruct IH as (x' & y' & rest & IH).
    destruct (p x).
    + exists x, x', (y' :: rest). simpl in IH. rewrite IH. reflexivity.
    + exists x', y', rest. exact IH.
Qed.

End Matching.

Lemma where_active_id (id : Z) (r : UsersRow.t) :
  (UsersRow.active r =? 1) && (UsersRow.id r =? id) = true
  <-> active_with_id id r.
Proof.
  unfold active_with_id.
  rewrite andb_true_iff, !Z.eqb_eq. reflexivity.
Qed.

Lemma where_active_identity (db : Database) (identity : string)
  (r : UsersRow.t) :
  (UsersRow.active r =? 1) && identity_collation db (UsersRow.identity r) identity
  = true
  <-> active_with_identity db identity r.
Proof.
  unfold active_with_identity.
  rewrite andb_true_iff, Z.eqb_eq. reflexivity.
Qed.

Lemma findById_unique (db : Database) (id : Z) (r : UsersRow.t) :
  unique_match (active_with_id id) (users db) r ->
  findById db id = Resolve (recordToModel (select_fieldNames r)).
Proof.
  intros H. unfold findById, query_users_by_id.
  rewrite (filter_unique_match _ _ (where_active_id id) _ _ H).
  reflexivity.
Qed.

Lemma findById_none (db : Database) (id : Z) :
  no_match (active_with_id id) (users db) ->
  findById db id = Reject (not_found_id id).
Proof.
  intros H. unfold findById, query_users_by_id.
  rewrite (filter_no_match _ _ (where_active_id id) _ H).
  reflexivity.
Qed.

Lemma findById_several (db : Database) (id : Z) :
  several_match (active_with_id id) (users db) ->
  findById db id = Reject (not_found_id id).
Proof.
  intros H. unfold findById, query_users_by_id.
  destruct (filter_several_match _ _ (where_active_id id) _ H)
    as (x & y & rest & ->).
  reflexivity.
Qed.

Lemma findByIdentity_unique (db : Database) (identity : string) (r : UsersRow.t) :
  unique_match (active_with_identity db identity) (users db) r ->
  findByIdentity db identity = Resolve (recordToModel (select_fieldNames r)).
Proof.
  intros H. unfold findByIdentity, query_users_by_identity.
  rewrite (filter_unique_match _ _ (where_active_identity db identity) _ _ H).
  reflexivity.
Qed.

Lemma findByIdentity_none (db : Database) (identity : string) :
  no_match (active_with_identity db identity) (users db) ->
  findByIdentity db identity = Reject (not_found_identity identity).
Proof.
  intros H. unfold findByIdentity, query_users_by_identity.
  rewrite (filter_no_match _ _ (where_active_identity db identity) _ H).
  reflexivity.
Qed.

Lemma findByIdentity_several (db : Database) (identity : string) :
  several_match (active_with_identity db identity) (users db) ->
  findByIdentity db identity = Reject (not_found_identity identity).
Proof.
  intros H. unfold findByIdentity, query_users_by_identity.
  destruct (filter_several_match _ _ (where_active_identity db identity) _ H)
    as (x & y & rest & ->).
  reflexivity.
Qed.

(** ** Lookup by id and by identity *)

(** C1. [findById] and [findByIdentity] resolve to the model of the one
    active row that matches the key when exactly one does; when none or
    more than one does they reject with the same [NotFound] error, so a
    caller that goes on to verify a factor never sees a lookup failure as
    the verification result [false] (nor as any other boolean). *)
Theorem lookup_unique_or_NotFound (db : Database) :
  (forall id r,
      unique_match (active_with_id id) (users db) r ->
      findById db id = Resolve (recordToModel (select_fieldNames r)) /\
      User.id (recordToModel (select_fieldNames r)) = Some id) /\
  (forall id,
      no_match (active_with_id id) (users db) \/
      several_match (active_with_id id) (users db) ->
      findById db id = Reject (not_found_id id) /\
      forall (verify : User.t -> Promise bool) b,
        await (findById db id) verify <> Resolve b) /\
  (forall identity r,
      unique_match (active_with_identity db identity) (users db) r ->
      findByIdentity db identity = Resolve (recordToModel (select_fieldNames r)) /\
      identity_collation db
        (User.identity (recordToModel (select_fieldNames r))) identity = true) /\
  (forall identity,
      no_match (active_with_identity db identity) (users db) \/
      several_match (active_with_identity db identity) (users db) ->
      findByIdentity db identity = Reject (not_found_identity identity) /\
      forall (verify : User.t -> Promise bool) b,
        await (findByIdentity db identity) verify <> Resolve b).
Proof.
  repeat split.
  - apply findById_unique; assumption.
  - destruct H as (before & after & _ & [_ Hid] & _). simpl. f_equal. exact Hid.
  - destruct H; [apply findById_none | apply findById_several]; assumption.
  - intros verify b.
    assert (E : findById db id = Reject (not_found_id id))
      by (destruct H; [apply findById_none | apply findById_several]; assumption).
    rewrite E. simpl. discriminate.
  - apply findByIdentity_unique; assumption.
  - destruct H as (before & after & _ & [_ Hid] & _). simpl. exact Hid.
  - destruct H; [apply findByIdentity_none | apply findByIdentity_several];
      assumption.
  - intros verify b.
    assert (E : findByIdentity db identity = Reject (not_found_identity identity))
      by (destruct H; [apply findByIdentity_none | apply findByIdentity_several];
          assumption).
    rewrite E. simpl. discriminate.
Qed.

Lemma lookup_unique_or_NotFound_witness :
  findById example_db 1 = Resolve alice /\
  findById example_db 2 = Reject (not_found_id 2) /\
  findByIdentity example_db "alice@example.com" = Resolve alice /\
  findByIdentity example_db "bob@example.com"
  = Reject (not_found_identity "bob@example.com").
Proof.
  destruct (lookup_unique_or_NotFound example_db) as (Hid & Hid' & Hname & Hname').
  assert (Hbob : forall P : UsersRow.t -> Prop,
             (P bob_row -> UsersRow.active bob_row = 1) ->
             Forall (fun x => ~ P x) [bob_row]).
  { intros P HP. constructor; [|constructor].
    intros H. apply HP in H. discriminate H. }
  split; [|split; [|split]].
  - apply (Hid 1 alice_row).
    exists [], [bob_row]. split; [reflexivity|].
    split; [split; reflexivity|].
    split; [constructor|]. apply Hbob. intros [H _]. exact H.
  - apply (Hid' 2). left.
    constructor; [intros [_ H]; discriminate H|].
    apply Hbob. intros [H _]. exact H.
  - apply (Hname "alice@example.com" alice_row).
    exists [], [bob_row]. split; [reflexivity|].
    split; [split; reflexivity|].
    split; [constructor|]. apply Hbob. intros [H _]. exact H.
  - apply (Hname' "bob@example.com"). left.
    constructor; [intros [_ H]; discriminate H|].
    apply Hbob. intros [H _]. exact H.
Defined.

(** ** Saving a user *)

Lemma isExistingUser_id (user : User.t) :
  isExistingUser user = true <-> exists id, User.id user = Some id.
Proof.
  unfold isExistingUser. destruct (User.id user) as [id|]; split.
  - intros _. exists id. reflexivity.
  - reflexivity.
  - discriminate.
  - intros [id H]. discriminate H.
Qed.

Lemma fresh_counter (db : Database) :
  ids_below_counter db ->
  ~ In (users_auto_increment db) (map UsersRow.id (users db)).
Proof.
  unfold ids_below_counter. intros H Hin.
  apply in_map_iff in Hin. destruct Hin as (r & Hr & Hin).
  rewrite Forall_forall in H. specialize (H r Hin). lia.
Qed.

(** C2, as the code has it.  [save] of a user without an id appends one
    row to [users], with the identity, nickname and type of the input,
    the id the store assigns and [created] set to the server time; it
    returns the input with that id, and the [created] of the returned
    value is the one of the input, not the stored one.  The id is the one
    of no earlier row when the counter of the table is above the ids in
    use, and the counter stays above them. *)
Theorem save_new_user (db : Database) (user : User.t) :
  User.id user = None ->
  exists db',
    save db user
    = Resolve ({| User.id := Some (users_auto_increment db);
                  User.identity := User.identity user;
                  User.nickname := User.nickname user;
                  User.created := User.created user;
                  User.type := User.type user |}, db') /\
    users db'
    = (users db ++ [ {| UsersRow.id := users_auto_increment db;
                        UsersRow.identity := User.identity user;
                        UsersRow.nickname := User.nickname user;
                        UsersRow.created := unix_timestamp db;
                        UsersRow.type := User.type user;
                        UsersRow.active := users_active_default db |} ])%list /\
    user_passwords db' = user_passwords db /\
    user_totp db' = user_totp db /\
    (ids_below_counter db ->
     ~ In (users_auto_increment db) (map UsersRow.id (users db)) /\
     ids_below_counter db').
Proof.
  intros Hid. unfold save, isExistingUser, spread_over_id. rewrite Hid. simpl.
  eexists. split; [reflexivity|]. simpl.
  repeat split; try reflexivity.
  - apply fresh_counter; assumption.
  - unfold ids_below_counter in *. simpl.
    apply Forall_app. split.
    + eapply Forall_impl; [|eassumption]. simpl. intros r Hr. lia.
    + constructor; [simpl; lia|constructor].
Qed.

Lemma save_new_user_witness :
  exists db',
    save example_db new_carol
    = Resolve ({| User.id := Some 3; User.identity := "carol@example.com";
                  User.nickname := "Carol"; User.created := None;
                  User.type := 1 |}, db') /\
    map UsersRow.created (users db') = [1600000000; 1600000500; 1700000000].
Proof.
  destruct (save_new_user example_db new_carol eq_refl)
    as (db' & Hsave & Husers & _).
  exists db'. split; [exact Hsave|].
  rewrite Husers. reflexivity.
Defined.

(** C2 as the specification words it fails on the returned value: for a
    new user without [created] the value [save] returns has no
    [created] at all, and for one that carries a [created] the returned
    one is that, however old. *)
Lemma save_new_user_created_counterexample :
  ~ (exists u db' d,
        save example_db new_carol = Resolve (u, db') /\
        User.created u = Some d /\
        unix_timestamp example_db * 1000 <= getTime d) /\
  ~ (exists u db' d,
        save example_db new_dave = Resolve (u, db') /\
        User.created u = Some d /\
        unix_timestamp example_db * 1000 <= getTime d).
Proof.
  split; intros (u & db' & d & Hsave & Hcreated & Hle);
    vm_compute in Hsave; injection Hsave as Hu _; subst u.
  - discriminate Hcreated.
  - injection Hcreated as Hd. subst d. vm_compute in Hle. apply Hle. reflexivity.
Qed.

Lemma update_user_rows (id : Z) (identity nickname : string)
  (rows : list UsersRow.t) :
  Forall2 (updated_row id identity nickname) rows
          (map (update_user_row identity nickname (Some id)) rows).
Proof.
  induction rows as [|r rows IH]; simpl; constructor; [|exact IH].
  unfold update_user_row, updated_row, sql_eq.
  destruct (UsersRow.id r =? id) eqn:E; simpl.
  - apply Z.eqb_eq in E.
    do 4 (split; [reflexivity|]).
    split; [intros _; split; reflexivity | intros Hne; contradiction].
  - apply Z.eqb_neq in E.
    do 4 (split; [reflexivity|]).
    split; [intros He; contradiction | reflexivity].
Qed.

(** C5. [save] of a user with an id resolves to the very value it was
    given, whatever the store holds.  In the store, the rows of [users]
    with that id get the identity and the nickname of the input; every
    row keeps its id, [created], [type] and [active], the other rows stay
    as they are, no row is added or removed, and the other tables and the
    counter are left alone. *)
Theorem save_existing_user (db : Database) (user : User.t) (id : Z) :
  User.id user = Some id ->
  exists db',
    save db user = Resolve (user, db') /\
    Forall2 (updated_row id (User.identity user) (User.nickname user))
            (users db) (users db') /\
    user_passwords db' = user_passwords db /\
    user_totp db' = user_totp db /\
    users_auto_increment db' = users_auto_increment db.
Proof.
  intros Hid. unfold save, isExistingUser. rewrite Hid. simpl.
  eexists. split; [reflexivity|]. simpl.
  split; [apply update_user_rows|]. repeat split.
Qed.

Lemma save_existing_user_witness :
  exists db',
    save example_db alicia = Resolve (alicia, db') /\
    users db'
    = [ {| UsersRow.id := 1; UsersRow.identity := "alice@new.com";
           UsersRow.nickname := "Alicia"; UsersRow.created := 1600000000;
           UsersRow.type := 1; UsersRow.active := 1 |};
        bob_row ].
Proof.
  destruct (save_existing_user example_db alicia 1 eq_refl)
    as (db' & Hsave & Hrows & _).
  exists db'. split; [exact Hsave|].
  simpl in Hrows.
  inversion Hrows as [|r1 r1' l1 l1' Halice Hrest]; subst.
  inversion Hrest as [|r2 r2' l2 l2' Hbob Hnil]; subst.
  inversion Hnil; subst.
  destruct Halice as (Hi & Hc & Ht & Ha & Hset & _).
  destruct (Hset eq_refl) as [Hidentity Hnickname].
  destruct Hbob as (_ & _ & _ & _ & _ & Hsame).
  rewrite (Hsame ltac:(discriminate)).
  destruct r1' as [i e n c t a]. simpl in *. subst. reflexivity.
Defined.

(** ** Passwords *)

Lemma credentials_of_query (db : Database) (user_id : sql_param) :
  map Buffer_toString (map PasswordRow.password (query_passwords db user_id))
  = credentials_of user_id (user_passwords db).
Proof.
  unfold query_passwords. rewrite !map_map. simpl.
  induction (user_passwords db) as [|r rows IH]; simpl; [reflexivity|].
  destruct (sql_eq (PasswordsRow.user_id r) user_id); simpl; congruence.
Qed.

Lemma credentials_of_app (user_id : sql_param) (rows rows' : list PasswordsRow.t) :
  credentials_of user_id (rows ++ rows')
  = (credentials_of user_id rows ++ credentials_of user_id rows')%list.
Proof.
  induction rows as [|r rows IH]; simpl; [reflexivity|].
  destruct (sql_eq (PasswordsRow.user_id r) user_id); simpl; congruence.
Qed.

Lemma Buffer_roundtrip (s : string) : Buffer_toString (Buffer_from s) = s.
Proof. apply string_of_list_byte_of_string. Qed.

Section PasswordLoop.

Context {bcrypt : Bcrypt}.
Variable password : string.

(** Hashes that do not match are passed over. *)
Lemma loop_skip (before rest : list Buffer) :
  Forall (mismatch password) (map Buffer_toString before) ->
  validatePassword_loop password (before ++ rest)
  = validatePassword_loop password rest.
Proof.
  induction before as [|h before IH]; simpl; intros H; [reflexivity|].
  inversion H as [|x l Hh Hrest]; subst.
  unfold mismatch in Hh. rewrite Hh. simpl. apply IH. exact Hrest.
Qed.

(** The first match ends the loop: nothing after it is compared. *)
Lemma loop_hit (before : list Buffer) (h : Buffer) (after : list Buffer) :
  Forall (mismatch password) (map Buffer_toString before) ->
  bcrypt_compare password (Buffer_toString h) = Resolve true ->
  validatePassword_loop password (before ++ h :: after) = Resolve true.
Proof.
  intros Hb Hh. rewrite (loop_skip _ _ Hb). simpl. rewrite Hh. reflexivity.
Qed.

Lemma loop_miss (hashes : list Buffer) :
  Forall (mismatch password) (map Buffer_toString hashes) ->
  validatePassword_loop password hashes = Resolve false.
Proof.
  intros H. rewrite <- (app_nil_r hashes). rewrite (loop_skip _ _ H).
  reflexivity.
Qed.

Lemma loop_fail (before : list Buffer) (h : Buffer) (after : list Buffer)
  (e : error) :
  Forall (mismatch password) (map Buffer_toString before) ->
  bcrypt_compare password (Buffer_toString h) = Reject e ->
  validatePassword_loop password (before ++ h :: after) = Reject e.
Proof.
  intros Hb Hh. rewrite (loop_skip _ _ Hb). simpl. rewrite Hh. reflexivity.
Qed.

(** Every outcome of the loop is one of the three above. *)
Lemma loop_outcome (hashes : list Buffer) :
  match validatePassword_loop password hashes with
  | Resolve false => Forall (mismatch password) (map Buffer_toString hashes)
  | Resolve true =>
      exists before h after,
        hashes = (before ++ h :: after)%list /\
        Forall (mismatch password) (map Buffer_toString before) /\
        bcrypt_compare password (Buffer_toString h) = Resolve true
  | Reject e =>
      exists before h after,
        hashes = (before ++ h :: after)%list /\
        Forall (mismatch password) (map Buffer_toString before) /\
        bcrypt_compare password (Buffer_toString h) = Reject e
  end.
Proof.
  induction hashes as [|h hashes IH]; simpl; [constructor|].
  destruct (bcrypt_compare password (Buffer_toString h)) as [[|]|e] eqn:E; simpl.
  - exists [], h, hashes. repeat split; [constructor | exact E].
  - destruct (validatePassword_loop password hashes) as [[|]|e'].
    + destruct IH as (before & h' & after & -> & Hb & Hh).
      exists (h :: before), h', after. repeat split; [|exact Hh].
      simpl. constructor; assumption.
    + simpl. constructor; assumption.
    + destruct IH as (before & h' & after & -> & Hb & Hh).
      exists (h :: before), h', after. repeat split; [|exact Hh].
      simpl. constructor; assumption.
  - exists [], h, hashes. repeat split; [constructor | exact E].
Qed.

End PasswordLoop.

Lemma split_stored (stored : list Buffer)
  (before : list string) (h : string) (after : list string) :
  map Buffer_toString stored = (before ++ h :: after)%list ->
  exists before' h' after',
    stored = (before' ++ h' :: after')%list /\
    map Buffer_toString before' = before /\ Buffer_toString h' = h.
Proof.
  intros H. apply map_eq_app in H.
  destruct H as (before' & rest & -> & Hb & Hrest).
  apply map_eq_cons in Hrest. destruct Hrest as (h' & after' & -> & Hh & _).
  exists before', h', after'. repeat split; assumption.
Qed.

Lemma validatePassword_miss {bcrypt : Bcrypt} (db : Database) (user : User.t)
  (password : string) :
  Forall (mismatch password) (credentials_of (User.id user) (user_passwords db)) ->
  validatePassword db user password = Resolve false.
Proof.
  rewrite <- credentials_of_query. apply loop_miss.
Qed.

Lemma validatePassword_true_inv {bcrypt : Bcrypt} (db : Database)
  (user : User.t) (password : string) :
  validatePassword db user password = Resolve true ->
  exists before h after,
    credentials_of (User.id user) (user_passwords db)
    = (before ++ h :: after)%list /\
    Forall (mismatch password) before /\
    bcrypt_compare password h = Resolve true.
Proof.
  rewrite <- credentials_of_query. unfold validatePassword.
  set (stored := map PasswordRow.password (query_passwords db (User.id user))).
  intros H. pose proof (loop_outcome password stored) as Hout.
  rewrite H in Hout. destruct Hout as (b & h & a & -> & Hb & Hh).
  exists (map Buffer_toString b), (Buffer_toString h), (map Buffer_toString a).
  rewrite map_app. simpl. repeat split; assumption.
Qed.

(** C3. [validatePassword] tests the candidate against the hashes of the
    rows of [user_passwords] with the id of the user, in store order,
    and stops at the first that matches: it resolves to [true] as soon as
    one matches after none did, whatever rows follow it (even rows on
    which the comparison would fail), and to [false] when the user has no
    row or no hash matches.  A failure of the comparison before any match
    is the failure of the call, and no other outcome exists. *)
Theorem validatePassword_first_match {bcrypt : Bcrypt}
  (db : Database) (user : User.t) (password : string) :
  let hashes := credentials_of (User.id user) (user_passwords db) in
  (hashes = [] -> validatePassword db user password = Resolve false) /\
  (Forall (mismatch password) hashes ->
   validatePassword db user password = Resolve false) /\
  (forall before h after,
      hashes = (before ++ h :: after)%list ->
      Forall (mismatch password) before ->
      bcrypt_compare password h = Resolve true ->
      validatePassword db user password = Resolve true) /\
  (forall before h after e,
      hashes = (before ++ h :: after)%list ->
      Forall (mismatch password) before ->
      bcrypt_compare password h = Reject e ->
      validatePassword db user password = Reject e) /\
  (validatePassword db user password = Resolve true ->
   exists before h after,
     hashes = (before ++ h :: after)%list /\
     Forall (mismatch password) before /\
     bcrypt_compare password h = Resolve true) /\
  (validatePassword db user password = Resolve false ->
   Forall (mismatch password) hashes).
Proof.
  intros hashes. subst hashes.
  rewrite <- (credentials_of_query db (User.id user)).
  unfold validatePassword.
  set (stored := map PasswordRow.password (query_passwords db (User.id user))).
  split; [|split; [|split; [|split; [|split]]]].
  - intros H. apply loop_miss. rewrite H. constructor.
  - apply loop_miss.
  - intros before h after Hsplit Hb Hh.
    destruct (split_stored _ _ _ _ Hsplit) as (b' & h' & a' & -> & <- & <-).
    apply loop_hit; assumption.
  - intros before h after e Hsplit Hb Hh.
    destruct (split_stored _ _ _ _ Hsplit) as (b' & h' & a' & -> & <- & <-).
    apply loop_fail; assumption.
  - intros H. subst stored. rewrite credentials_of_query.
    apply validatePassword_true_inv. exact H.
  - intros H. pose proof (loop_outcome password stored) as Hout.
    rewrite H in Hout. exact Hout.
Qed.

Lemma validatePassword_first_match_witness :
  @validatePassword plain_bcrypt passwords_db alice "Secr3tPass!" = Resolve true /\
  @validatePassword plain_bcrypt passwords_db alice "BobPass"
  = Reject (LibraryError "data and hash arguments required") /\
  @validatePassword plain_bcrypt example_db alice "Secr3tPass!" = Resolve false.
Proof.
  destruct (@validatePassword_first_match plain_bcrypt passwords_db alice
              "Secr3tPass!") as (_ & _ & Hhit & _).
  destruct (@validatePassword_first_match plain_bcrypt passwords_db alice
              "BobPass") as (_ & _ & _ & Hfail & _).
  destruct (@validatePassword_first_match plain_bcrypt example_db alice
              "Secr3tPass!") as (Hnone & _).
  split; [|split].
  - apply (Hhit ["$2b$OldPass"] "$2b$Secr3tPass!" [""]).
    + reflexivity.
    + constructor; [reflexivity|constructor].
    + reflexivity.
  - apply (Hfail ["$2b$OldPass"; "$2b$Secr3tPass!"] "" []).
    + reflexivity.
    + constructor; [reflexivity|]. constructor; [reflexivity|constructor].
    + reflexivity.
  - apply Hnone. reflexivity.
Defined.

Section UnderContract.

Context {bcrypt : Bcrypt} {contract : BcryptContract bcrypt}.

(** With a comparison that answers on every hash, one matching hash
    anywhere among the stored ones is enough. *)
Lemma loop_In (password : string) (stored : list Buffer) (h : string) :
  In h (map Buffer_toString stored) ->
  bcrypt_compare password h = Resolve true ->
  validatePassword_loop password stored = Resolve true.
Proof.
  intros Hin Hh. induction stored as [|x stored IH]; simpl in *; [contradiction|].
  destruct (compare_resolves password (Buffer_toString x)) as [b Hb].
  rewrite Hb. simpl. destruct b; [reflexivity|].
  destruct Hin as [Hx | Hin]; [|exact (IH Hin)].
  rewrite Hx in Hb. rewrite Hb in Hh. discriminate Hh.
Qed.

Lemma validatePassword_In (db : Database) (user : User.t) (password h : string) :
  In h (credentials_of (User.id user) (user_passwords db)) ->
  bcrypt_compare password h = Resolve true ->
  validatePassword db user password = Resolve true.
Proof.
  rewrite <- credentials_of_query. unfold validatePassword. apply loop_In.
Qed.

Lemma createPassword_resolves (salt : string) (db : Database) (user : User.t)
  (password hash : string) :
  bcrypt_hash salt password 12 = Resolve hash ->
  createPassword salt db user password
  = Resolve (insert_password db (User.id user) hash).
Proof.
  intros H. unfold createPassword. rewrite H. reflexivity.
Qed.

Lemma credentials_after_insert (db : Database) (id : Z) (hash : string) :
  credentials_of (Some id) (user_passwords (insert_password db (Some id) hash))
  = (credentials_of (Some id) (user_passwords db) ++ [hash])%list.
Proof.
  simpl. rewrite credentials_of_app. simpl.
  rewrite Z.eqb_refl, Buffer_roundtrip. reflexivity.
Qed.

End UnderContract.

(** C6. When [bcrypt.hash] of the password with 12 rounds gives a hash,
    [createPassword] appends one row to [user_passwords], with the id of
    the user and that hash, and touches nothing else; after it
    [validatePassword] of the same password resolves to [true], and of a
    candidate that matches none of the hashes then stored for the user to
    [false]. *)
Theorem createPassword_then_validate {bcrypt : Bcrypt}
  {contract : BcryptContract bcrypt}
  (db : Database) (user : User.t) (id : Z) (salt password hash : string) :
  User.id user = Some id ->
  bcrypt_hash salt password 12 = Resolve hash ->
  exists db',
    createPassword salt db user password = Resolve db' /\
    user_passwords db'
    = (user_passwords db
       ++ [ {| PasswordsRow.user_id := Some id;
               PasswordsRow.password := Buffer_from hash |} ])%list /\
    users db' = users db /\
    user_totp db' = user_totp db /\
    validatePassword db' user password = Resolve true /\
    (forall candidate,
        Forall (mismatch candidate)
               (credentials_of (Some id) (user_passwords db')) ->
        validatePassword db' user candidate = Resolve false).
Proof.
  intros Hid Hhash.
  exists (insert_password db (User.id user) hash).
  split; [apply createPassword_resolves; exact Hhash|].
  rewrite Hid.
  split; [reflexivity|]. split; [reflexivity|]. split; [reflexivity|].
  split.
  - apply (validatePassword_In _ _ _ hash).
    + rewrite Hid, credentials_after_insert. apply in_or_app. right. left.
      reflexivity.
    + exact (compare_hash _ _ _ _ Hhash).
  - intros candidate Hall.
    apply validatePassword_miss. rewrite Hid. exact Hall.
Qed.

Lemma total_bcrypt_contract : BcryptContract total_bcrypt.
Proof.
  split.
  - intros data encrypted. eexists. reflexivity.
  - intros salt data rounds encrypted H. simpl in *.
    unfold plain_hash in H. injection H as <-.
    unfold total_compare. rewrite String.eqb_refl. reflexivity.
Defined.

Lemma createPassword_then_validate_witness :
  exists db',
    @createPassword total_bcrypt "salt" example_db alice "Secr3tPass!"
    = Resolve db' /\
    @validatePassword total_bcrypt db' alice "Secr3tPass!" = Resolve true /\
    @validatePassword total_bcrypt db' alice "WrongPass" = Resolve false.
Proof.
  destruct (@createPassword_then_validate total_bcrypt total_bcrypt_contract
              example_db alice 1 "salt" "Secr3tPass!" "$2b$Secr3tPass!"
              eq_refl eq_refl)
    as (db' & Hcreate & Hrows & _ & _ & Hok & Hwrong).
  exists db'. split; [exact Hcreate|]. split; [exact Hok|].
  apply Hwrong. rewrite Hrows. simpl.
  constructor; [reflexivity|constructor].
Defined.

(** C4. [createPassword] only appends: after two calls for a user the
    rows that were there are still there, in their places, followed by
    the two new ones.  Both passwords then verify, the first one verified
    already before the second was added, and whatever password verified
    before the two calls still does. *)
Theorem createPassword_accumulates {bcrypt : Bcrypt}
  {contract : BcryptContract bcrypt}
  (db : Database) (user : User.t) (id : Z)
  (salt1 P1 hash1 salt2 P2 hash2 : string) :
  User.id user = Some id ->
  bcrypt_hash salt1 P1 12 = Resolve hash1 ->
  bcrypt_hash salt2 P2 12 = Resolve hash2 ->
  exists db1 db2,
    createPassword salt1 db user P1 = Resolve db1 /\
    createPassword salt2 db1 user P2 = Resolve db2 /\
    user_passwords db2
    = (user_passwords db
       ++ [ {| PasswordsRow.user_id := Some id;
               PasswordsRow.password := Buffer_from hash1 |};
            {| PasswordsRow.user_id := Some id;
               PasswordsRow.password := Buffer_from hash2 |} ])%list /\
    validatePassword db1 user P1 = Resolve true /\
    validatePassword db2 user P1 = Resolve true /\
    validatePassword db2 user P2 = Resolve true /\
    (forall P0, validatePassword db user P0 = Resolve true ->
                validatePassword db2 user P0 = Resolve true).
Proof.
  intros Hid H1 H2.
  set (db1 := insert_password db (User.id user) hash1).
  set (db2 := insert_password db1 (User.id user) hash2).
  exists db1, db2.
  assert (Hcreds1 : credentials_of (User.id user) (user_passwords db1)
                    = (credentials_of (User.id user) (user_passwords db)
                       ++ [hash1])%list).
  { subst db1. rewrite Hid. apply credentials_after_insert. }
  assert (Hcreds2 : credentials_of (User.id user) (user_passwords db2)
                    = (credentials_of (User.id user) (user_passwords db)
                       ++ [hash1; hash2])%list).
  { subst db2. rewrite Hid. rewrite credentials_after_insert.
    rewrite <- Hid, Hcreds1, <- app_assoc. reflexivity. }
  split; [apply createPassword_resolves; exact H1|].
  split; [apply createPassword_resolves; exact H2|].
  split; [subst db2 db1; rewrite Hid; simpl; rewrite <- app_assoc; reflexivity|].
  split; [|split; [|split]].
  - apply (validatePassword_In _ _ _ hash1).
    + rewrite Hcreds1. apply in_or_app. right. left. reflexivity.
    + exact (compare_hash _ _ _ _ H1).
  - apply (validatePassword_In _ _ _ hash1).
    + rewrite Hcreds2. apply in_or_app. right. left. reflexivity.
    + exact (compare_hash _ _ _ _ H1).
  - apply (validatePassword_In _ _ _ hash2).
    + rewrite Hcreds2. apply in_or_app. right. right. left. reflexivity.
    + exact (compare_hash _ _ _ _ H2).
  - intros P0 H0.
    destruct (validatePassword_true_inv _ _ _ H0)
      as (before & h & after & Hsplit & _ & Hh).
    apply (validatePassword_In _ _ _ h); [|exact Hh].
    rewrite Hcreds2, Hsplit. apply in_or_app. left.
    apply in_or_app. right. left. reflexivity.
Qed.

Lemma createPassword_accumulates_witness :
  exists db1 db2,
    @createPassword total_bcrypt "salt1" example_db alice "Secr3tPass!"
    = Resolve db1 /\
    @createPassword total_bcrypt "salt2" db1 alice "Backup#2" = Resolve db2 /\
    @validatePassword total_bcrypt db2 alice "Secr3tPass!" = Resolve true /\
    @validatePassword total_bcrypt db2 alice "Backup#2" = Resolve true.
Proof.
  destruct (@createPassword_accumulates total_bcrypt total_bcrypt_contract
              example_db alice 1
              "salt1" "Secr3tPass!" "$2b$Secr3tPass!"
              "salt2" "Backup#2" "$2b$Backup#2"
              eq_refl eq_refl eq_refl)
    as (db1 & db2 & Hc1 & Hc2 & _ & _ & Hv1 & Hv2 & _).
  exists db1, db2. repeat split; assumption.
Defined.

(** ** One-time codes *)

Lemma where_user_id_totp (user : User.t) (r : TotpRow.t) :
  sql_eq (TotpRow.user_id r) (User.id user) = true <-> secret_of user r.
Proof.
  unfold sql_eq, secret_of.
  destruct (TotpRow.user_id r) as [c|], (User.id user) as [i|]; split;
    try discriminate.
  - intros H. apply Z.eqb_eq in H. subst. exists i. split; reflexivity.
  - intros (id & Hi & Hc). injection Hi as <-. injection Hc as <-.
    apply Z.eqb_refl.
  - intros (id & Hi & _). discriminate Hi.
  - intros (id & _ & Hc). discriminate Hc.
  - intros (id & _ & Hc). discriminate Hc.
Qed.

Lemma query_totp_none (db : Database) (user : User.t) :
  no_match (secret_of user) (user_totp db) ->
  query_totp db (User.id user) = [].
Proof.
  intros H. unfold query_totp.
  rewrite (filter_no_match _ _ (where_user_id_totp user) _ H). reflexivity.
Qed.

Lemma query_totp_first (db : Database) (user : User.t)
  (before : list TotpRow.t) (r : TotpRow.t) (after : list TotpRow.t) :
  user_totp db = (before ++ r :: after)%list ->
  no_match (secret_of user) before ->
  secret_of user r ->
  exists rest, query_totp db (User.id user) = TotpRow.secret r :: rest.
Proof.
  intros Hrows Hb Hr. unfold query_totp. rewrite Hrows, filter_app.
  rewrite (filter_no_match _ _ (where_user_id_totp user) _ Hb). simpl.
  apply where_user_id_totp in Hr. rewrite Hr. simpl.
  eexists. reflexivity.
Qed.

Lemma query_totp_In (db : Database) (user : User.t) (secret : string) :
  In secret (query_totp db (User.id user)) ->
  exists r, In r (user_totp db) /\ secret_of user r /\ TotpRow.secret r = secret.
Proof.
  unfold query_totp. intros H. apply in_map_iff in H.
  destruct H as (r & Hs & Hin). apply filter_In in Hin.
  destruct Hin as [Hin Hr]. apply where_user_id_totp in Hr.
  exists r. repeat split; assumption.
Qed.

(** C7. For a user with no row in [user_totp], [validateTotp] resolves
    to [false] for every token, whatever the library would answer.
    [validateTotp] has no failure of its own: when it rejects, the check
    of the library against a secret of the user did.  So a token that the
    library matches against no secret, as it does a token it cannot
    read, gives [false] and not an error. *)
Theorem validateTotp_not_enabled {otplib : Otplib}
  (db : Database) (user : User.t) (token : string) :
  (no_match (secret_of user) (user_totp db) ->
   validateTotp db user token = Resolve false) /\
  (forall e, validateTotp db user token = Reject e ->
     exists r, In r (user_totp db) /\ secret_of user r /\
               authenticator_check token (TotpRow.secret r) = Reject e) /\
  ((forall secret, authenticator_check token secret = Resolve false) ->
   validateTotp db user token = Resolve false).
Proof.
  split; [|split].
  - intros H. unfold validateTotp. rewrite (query_totp_none _ _ H). reflexivity.
  - intros e. unfold validateTotp.
    destruct (query_totp db (User.id user)) as [|secret rest] eqn:E;
      [discriminate|].
    intros H.
    destruct (query_totp_In db user secret) as (r & Hin & Hr & Hs).
    { rewrite E. left. reflexivity. }
    exists r. rewrite Hs. repeat split; assumption.
  - intros H. unfold validateTotp.
    destruct (query_totp db (User.id user)) as [|secret rest];
      [reflexivity | apply H].
Qed.

Lemma validateTotp_not_enabled_witness :
  @validateTotp digits_otplib example_db alice "123456" = Resolve false /\
  @validateTotp digits_otplib totp_db alice "12345x" = Resolve false.
Proof.
  destruct (@validateTotp_not_enabled digits_otplib example_db alice "123456")
    as (Hnone & _).
  destruct (@validateTotp_not_enabled digits_otplib totp_db alice "12345x")
    as (_ & _ & Hunreadable).
  split.
  - apply Hnone. constructor.
  - apply Hunreadable. intros secret. reflexivity.
Defined.

(** C9. [validateTotp] checks the token against the secret of the first
    row of [user_totp] that belongs to the user, and its result is the
    result of that check: the rows after it, whether of the same user or
    not, have no part in it. *)
Theorem validateTotp_first_row {otplib : Otplib}
  (db : Database) (user : User.t) (token : string)
  (before : list TotpRow.t) (r : TotpRow.t) (after : list TotpRow.t) :
  user_totp db = (before ++ r :: after)%list ->
  no_match (secret_of user) before ->
  secret_of user r ->
  validateTotp db user token = authenticator_check token (TotpRow.secret r) /\
  (forall db' after',
      user_totp db' = (before ++ r :: after')%list ->
      validateTotp db' user token = validateTotp db user token).
Proof.
  intros Hrows Hb Hr.
  assert (Hfirst : forall d a, user_totp d = (before ++ r :: a)%list ->
            validateTotp d user token
            = authenticator_check token (TotpRow.secret r)).
  { intros d a Hd. unfold validateTotp.
    destruct (query_totp_first d user before r a Hd Hb Hr) as [rest ->].
    reflexivity. }
  split.
  - exact (Hfirst db after Hrows).
  - intros db' after' Hrows'.
    rewrite (Hfirst db' after' Hrows'), (Hfirst db after Hrows). reflexivity.
Qed.

Lemma validateTotp_first_row_witness :
  @validateTotp digits_otplib totp_db alice "123456" = Resolve true /\
  @validateTotp digits_otplib totp_db alice "654321" = Resolve false.
Proof.
  assert (Hbob : no_match (secret_of alice)
                   [ {| TotpRow.user_id := Some 2; TotpRow.secret := "222222" |} ]).
  { constructor; [|constructor]. intros (id & Hi & Hc).
    injection Hi as <-. discriminate Hc. }
  assert (Halice : secret_of alice
                     {| TotpRow.user_id := Some 1; TotpRow.secret := "123456" |}).
  { exists 1. split; reflexivity. }
  split.
  - exact (proj1 (@validateTotp_first_row digits_otplib totp_db alice "123456"
                    [ {| TotpRow.user_id := Some 2; TotpRow.secret := "222222" |} ]
                    {| TotpRow.user_id := Some 1; TotpRow.secret := "123456" |}
                    [ {| TotpRow.user_id := Some 1; TotpRow.secret := "" |} ]
                    eq_refl Hbob Halice)).
  - exact (proj1 (@validateTotp_first_row digits_otplib totp_db alice "654321"
                    [ {| TotpRow.user_id := Some 2; TotpRow.secret := "222222" |} ]
                    {| TotpRow.user_id := Some 1; TotpRow.secret := "123456" |}
                    [ {| TotpRow.user_id := Some 1; TotpRow.secret := "" |} ]
                    eq_refl Hbob Halice)).
Defined.

(** ** What a verification depends on *)

(** C8. Two users with the same id get the same answer from
    [validatePassword] and from [validateTotp], for the same candidate on
    the same store, whatever their other fields are. *)
Theorem verification_depends_on_id {bcrypt : Bcrypt} {otplib : Otplib}
  (db : Database) (u1 u2 : User.t) (candidate : string) :
  User.id u1 = User.id u2 ->
  validatePassword db u1 candidate = validatePassword db u2 candidate /\
  validateTotp db u1 candidate = validateTotp db u2 candidate.
Proof.
  intros H. unfold validatePassword, validateTotp. rewrite H.
  split; reflexivity.
Qed.

Lemma verification_depends_on_id_witness :
  User.identity alice <> User.identity alicia /\
  User.nickname alice <> User.nickname alicia /\
  User.created alice <> User.created alicia /\
  User.type alice <> User.type alicia /\
  @validatePassword plain_bcrypt passwords_db alice "Secr3tPass!"
  = @validatePassword plain_bcrypt passwords_db alicia "Secr3tPass!" /\
  @validateTotp digits_otplib passwords_db alice "Secr3tPass!"
  = @validateTotp digits_otplib passwords_db alicia "Secr3tPass!".
Proof.
  do 4 (split; [discriminate|]).
  exact (@verification_depends_on_id plain_bcrypt digits_otplib passwords_db
           alice alicia "Secr3tPass!" eq_refl).
Defined.

(** ** The model of a row *)

Lemma recordToModel_models (r : UsersRow.t) :
  models r (recordToModel (select_fieldNames r)).
Proof.
  unfold models. simpl. repeat split.
  exists (new_Date (UsersRow.created r * 1000)). split; reflexivity.
Qed.

Lemma models_unique (r : UsersRow.t) (u u' : User.t) :
  models r u -> models r u' -> u = u'.
Proof.
  intros (Hi & He & Hn & (d & Hc & Hd) & Ht) (Hi' & He' & Hn' & (d' & Hc' & Hd') & Ht').
  destruct u as [i e n c t], u' as [i' e' n' c' t']. simpl in *.
  destruct d as [ms], d' as [ms']. simpl in *. subst.
  reflexivity.
Qed.

Lemma active_rows_modelled (p : UsersRow.t -> bool) (rows : list UsersRow.t) :
  (forall r, p r = true -> UsersRow.active r = 1) ->
  Forall (fun u => exists r, In r rows /\ UsersRow.active r = 1 /\ models r u)
         (map recordToModel (map select_fieldNames (filter p rows))).
Proof.
  intros Hp. rewrite map_map. apply Forall_forall. intros u Hu.
  apply in_map_iff in Hu. destruct Hu as (r & <- & Hin).
  apply filter_In in Hin. destruct Hin as [Hin Hr].
  exists r. split; [exact Hin|]. split; [apply Hp; exact Hr|].
  apply recordToModel_models.
Qed.

Lemma single_modelled (p : UsersRow.t -> bool) (rows : list UsersRow.t)
  (e : error) (u : User.t) :
  (forall r, p r = true -> UsersRow.active r = 1) ->
  match map select_fieldNames (filter p rows) with
  | [user] => Resolve (recordToModel user)
  | _ => Reject e
  end = Resolve u ->
  exists r, In r rows /\ UsersRow.active r = 1 /\ models r u.
Proof.
  intros Hp H.
  pose proof (active_rows_modelled p rows Hp) as Hall.
  destruct (map select_fieldNames (filter p rows)) as [|x [|y rest]];
    try discriminate H.
  injection H as <-. inversion Hall; subst. assumption.
Qed.

(** C10. Every user that [findAll], [findById] or [findByIdentity]
    returns is the model of an active row of [users]: its id, identity,
    nickname and type are those of the row and its [created] is the date
    whose time value is the stored seconds times 1000.  These five
    fields are all there is to the value: the model of a row is unique.
    The result object it is built from has the columns of [fieldNames]
    and no column [active]. *)
Theorem returned_users_model (db : Database) :
  (exists all,
      findAll db = Resolve all /\
      Forall (fun u => exists r, In r (users db) /\ UsersRow.active r = 1 /\
                                 models r u) all) /\
  (forall id u, findById db id = Resolve u ->
      exists r, In r (users db) /\ UsersRow.active r = 1 /\ models r u) /\
  (forall identity u, findByIdentity db identity = Resolve u ->
      exists r, In r (users db) /\ UsersRow.active r = 1 /\ models r u) /\
  (forall r u u', models r u -> models r u' -> u = u') /\
  (forall r,
      map fst (select_columns fieldNames r)
      = ["id"; "identity"; "nickname"; "created"; "type"] /\
      result_get (select_columns fieldNames r) "active" = None /\
      as_UserRecord (select_columns fieldNames r) = Some (select_fieldNames r)).
Proof.
  split; [|split; [|split; [|split]]].
  - eexists. split; [reflexivity|].
    unfold query_users_active. apply active_rows_modelled.
    intros r Hr. apply Z.eqb_eq. exact Hr.
  - intros id u. unfold findById, query_users_by_id.
    apply single_modelled.
    intros r Hr. apply andb_true_iff in Hr. apply Z.eqb_eq. apply Hr.
  - intros identity u. unfold findByIdentity, query_users_by_identity.
    apply single_modelled.
    intros r Hr. apply andb_true_iff in Hr. apply Z.eqb_eq. apply Hr.
  - exact models_unique.
  - intros r. repeat split.
Qed.

Lemma returned_users_model_witness :
  exists r, In r (users example_db) /\ UsersRow.active r = 1 /\
            User.created alice = Some (new_Date 1600000000000) /\
            models r alice.
Proof.
  destruct (returned_users_model example_db) as (_ & Hid & _).
  destruct (Hid 1 alice eq_refl) as (r & Hin & Hactive & Hmodels).
  exists r. repeat split; try assumption; apply Hmodels.
Defined.

(** * More of the code *)

(** ** The home document *)

Lemma to_int_not_nil (n : Z) :
  Z.to_int n <> Decimal.Pos Decimal.Nil /\ Z.to_int n <> Decimal.Neg Decimal.Nil.
Proof.
  destruct n; simpl; split; try discriminate;
    intros H; injection H; apply Unsigned.to_uint_nonnil.
Qed.

(** The decimal text of a number tells the number. *)
Lemma number_toString_inj (a b : Z) :
  number_toString a = number_toString b -> a = b.
Proof.
  unfold number_toString. intros H.
  apply DecimalZ.to_int_inj.
  assert (E : NilZero.int_of_string (NilZero.string_of_int (Z.to_int a))
              = NilZero.int_of_string (NilZero.string_of_int (Z.to_int b)))
    by (rewrite H; reflexivity).
  rewrite !NilZero.isi in E by apply to_int_not_nil.
  injection E. auto.
Qed.

Lemma object_get_set_other {V : Type} (o : list (string * V))
  (key key' : string) (v : V) :
  key <> key' -> object_get (object_set o key v) key' = object_get o key'.
Proof.
  intros Hne. induction o as [|[k w] o IH]; simpl.
  - destruct (String.eqb_spec key key'); [contradiction | reflexivity].
  - destruct (String.eqb_spec k key) as [-> | Hk]; simpl.
    + destruct (String.eqb_spec key key'); [contradiction | reflexivity].
    + rewrite IH. reflexivity.
Qed.

(** X1. The home document has the thirteen fixed links in their order,
    then the link [registration] exactly when registration is enabled
    in the settings, then the link [exchange-one-time-token] exactly when
    the user is an admin, and no other link; version and stats are the
    ones given. *)
Theorem hal_links {Stats : Type} {settings : ServerSettings}
  (v : string) (user : User.t) (isAdmin : bool) (s : Stats) :
  let result := hal v user isAdmin s in
  map fst (_links result)
  = (base_relations
     ++ (if getSetting "registration.enabled" then ["registration"] else [])
     ++ (if isAdmin then ["exchange-one-time-token"] else []))%list /\
  object_get (_links result) "registration"
  = (if getSetting "registration.enabled"
     then Some (typed_link "/register" "Create a new user account" "text/html")
     else None) /\
  object_get (_links result) "exchange-one-time-token"
  = (if isAdmin
     then Some (plain_link "/exchange-one-time-token"
                  "Exchange a one-time token for a Access and Refresh token")
     else None) /\
  version result = v /\ stats result = s.
Proof.
  unfold hal.
  destruct (getSetting "registration.enabled"), isAdmin; simpl;
    repeat split; reflexivity.
Qed.

Lemma hal_links_shape {Stats : Type} {settings : ServerSettings}
  (v : string) (isAdmin : bool) (s : Stats) :
  exists rest, forall user,
    _links (hal v user isAdmin s)
    = ("self", plain_link "/" "Home")
      :: ("authenticated-as",
          plain_link ("/user/" ++ id_toString (User.id user))
                     (User.nickname user))
      :: rest.
Proof.
  unfold hal.
  destruct (getSetting "registration.enabled"), isAdmin; simpl;
    eexists; intros user; reflexivity.
Qed.

(** X2. The user shows in the home document through the link
    [authenticated-as] alone, which is [/user/<id>] with the nickname
    as title: every other link, and the list of relations, is the same
    for any two users. *)
Theorem hal_authenticated_as {Stats : Type} {settings : ServerSettings}
  (v : string) (u1 u2 : User.t) (isAdmin : bool) (s : Stats) :
  object_get (_links (hal v u1 isAdmin s)) "authenticated-as"
  = Some (plain_link ("/user/" ++ id_toString (User.id u1)) (User.nickname u1)) /\
  map fst (_links (hal v u1 isAdmin s)) = map fst (_links (hal v u2 isAdmin s)) /\
  (forall rel, rel <> "authenticated-as" ->
     object_get (_links (hal v u1 isAdmin s)) rel
     = object_get (_links (hal v u2 isAdmin s)) rel).
Proof.
  destruct (hal_links_shape v isAdmin s) as [rest Hshape].
  rewrite (Hshape u1), (Hshape u2).
  split; [reflexivity|]. split; [reflexivity|].
  intros rel Hne. cbn [object_get].
  destruct (String.eqb "self" rel); [reflexivity|].
  destruct (String.eqb_spec "authenticated-as" rel) as [E|_];
    [symmetry in E; contradiction | reflexivity].
Qed.

(** X3. Users with different ids get different [authenticated-as]
    links, whatever else the two documents are made for: the text of an
    id tells the id. *)
Theorem hal_authenticated_as_inj {Stats : Type} {settings : ServerSettings}
  (v1 v2 : string) (u1 u2 : User.t) (id1 id2 : Z) (admin1 admin2 : bool)
  (s1 s2 : Stats) :
  User.id u1 = Some id1 ->
  User.id u2 = Some id2 ->
  id1 <> id2 ->
  object_get (_links (hal v1 u1 admin1 s1)) "authenticated-as"
  <> object_get (_links (hal v2 u2 admin2 s2)) "authenticated-as".
Proof.
  intros H1 H2 Hne.
  destruct (hal_links_shape v1 admin1 s1) as [rest1 Hshape1].
  destruct (hal_links_shape v2 admin2 s2) as [rest2 Hshape2].
  rewrite (Hshape1 u1), (Hshape2 u2), H1, H2. simpl.
  intros E. injection E as E _. apply Hne.
  apply number_toString_inj. exact E.
Qed.

Lemma hal_authenticated_as_inj_witness :
  object_get (_links (@hal nat registration_open "0.1" alice true 0%nat))
             "authenticated-as"
  <> object_get (_links (@hal nat registration_open "0.1" bob true 0%nat))
                "authenticated-as".
Proof.
  apply (@hal_authenticated_as_inj nat registration_open "0.1" "0.1" alice bob
           1 2 true true 0%nat 0%nat eq_refl eq_refl).
  discriminate.
Defined.

(** ** A new user, then the lookups *)

Lemma below_counter_no_match (db : Database) :
  ids_below_counter db ->
  no_match (active_with_id (users_auto_increment db)) (users db).
Proof.
  unfold ids_below_counter, no_match. intros H.
  eapply Forall_impl; [|exact H]. simpl.
  intros r Hr [_ Hid]. lia.
Qed.

Lemma save_new_resolves (db : Database) (user : User.t) :
  User.id user = None ->
  save db user
  = Resolve (spread_over_id (users_auto_increment db) user,
             snd (insert_user db (User.identity user) (User.nickname user)
                              (User.type user))).
Proof.
  intros H. unfold save, isExistingUser. rewrite H. reflexivity.
Qed.

Lemma query_by_id_after_insert (db : Database) (identity nickname : string)
  (type id : Z) :
  query_users_by_id (snd (insert_user db identity nickname type)) id
  = (query_users_by_id db id
     ++ (if (users_active_default db =? 1) && (users_auto_increment db =? id)
         then [ {| UserRecord.id := users_auto_increment db;
                   UserRecord.identity := identity;
                   UserRecord.nickname := nickname;
                   UserRecord.created := unix_timestamp db;
                   UserRecord.type := type |} ]
         else []))%list.
Proof.
  unfold query_users_by_id. simpl. rewrite filter_app, map_app. simpl.
  destruct ((users_active_default db =? 1) && (users_auto_increment db =? id));
    reflexivity.
Qed.

(** X4. A new user can be looked up by the id [save] returned, when the
    ids in use are below the counter of the table and rows are active by
    default: [findById] then gives the identity, nickname and type that
    were saved and, as [created], the server time of the insert, which
    the value returned by [save] did not have.  Where rows are not
    active by default the user just saved is not found. *)
Theorem save_new_then_findById (db : Database) (user : User.t) :
  User.id user = None ->
  ids_below_counter db ->
  exists u db' id,
    save db user = Resolve (u, db') /\
    User.id u = Some id /\
    (users_active_default db = 1 ->
     findById db' id = Resolve (inserted_model db user)) /\
    (users_active_default db <> 1 ->
     findById db' id = Reject (not_found_id id)).
Proof.
  intros Hid Hbelow.
  eexists _, _, (users_auto_increment db).
  split; [apply save_new_resolves; exact Hid|].
  split; [unfold spread_over_id; rewrite Hid; reflexivity|].
  assert (Hold : query_users_by_id db (users_auto_increment db) = []).
  { unfold query_users_by_id.
    rewrite (filter_no_match _ _ (where_active_id _) _
               (below_counter_no_match db Hbelow)).
    reflexivity. }
  split; intros Hdefault; unfold findById;
    rewrite query_by_id_after_insert, Hold, Z.eqb_refl; simpl.
  - rewrite Hdefault. reflexivity.
  - apply Z.eqb_neq in Hdefault. rewrite Hdefault. reflexivity.
Qed.

Lemma save_new_then_findById_witness :
  exists u db',
    save example_db new_carol = Resolve (u, db') /\
    User.created u = None /\
    findById db' 3
    = Resolve {| User.id := Some 3; User.identity := "carol@example.com";
                 User.nickname := "Carol";
                 User.created := Some (new_Date 1700000000000);
                 User.type := 1 |}.
Proof.
  destruct (save_new_then_findById example_db new_carol eq_refl)
    as (u & db' & id & Hsave & Hid & Hfound & _).
  { repeat constructor. }
  exists u, db'.
  assert (Hsave' := Hsave). vm_compute in Hsave'.
  injection Hsave' as Hu _. subst u. injection Hid as <-.
  split; [exact Hsave|]. split; [reflexivity|].
  exact (Hfound eq_refl).
Defined.

(** X5. Saving a new user leaves every other lookup by id as it was, and
    [findAll] gets the new user at its end (when rows are active by
    default) and keeps the users it had, in their order. *)
Theorem save_new_frame (db : Database) (user : User.t) :
  User.id user = None ->
  exists u db' all,
    save db user = Resolve (u, db') /\
    findAll db = Resolve all /\
    findAll db'
    = Resolve (all ++ (if users_active_default db =? 1
                       then [inserted_model db user] else []))%list /\
    (forall id, Some id <> User.id u -> findById db' id = findById db id).
Proof.
  intros Hid. eexists _, _, _.
  split; [apply save_new_resolves; exact Hid|].
  split; [reflexivity|].
  split.
  - unfold findAll, query_users_active. simpl.
    rewrite filter_app, !map_app. simpl.
    destruct (users_active_default db =? 1); reflexivity.
  - intros id Hne. unfold spread_over_id in Hne. rewrite Hid in Hne. simpl in Hne.
    unfold findById. rewrite query_by_id_after_insert.
    destruct (Z.eqb_spec (users_auto_increment db) id) as [E|_].
    + subst id. contradiction.
    + rewrite andb_false_r, app_nil_r. reflexivity.
Qed.

Lemma save_new_frame_witness :
  exists u db',
    save example_db new_carol = Resolve (u, db') /\
    findById db' 1 = Resolve alice /\
    findById db' 2 = Reject (not_found_id 2).
Proof.
  destruct (save_new_frame example_db new_carol eq_refl)
    as (u & db' & all & Hsave & _ & _ & Hframe).
  exists u, db'.
  assert (Hsave' := Hsave). vm_compute in Hsave'.
  injection Hsave' as Hu _. subst u.
  split; [exact Hsave|]. split.
  - rewrite (Hframe 1); [reflexivity | discriminate].
  - rewrite (Hframe 2); [reflexivity | discriminate].
Defined.





(** ** An existing user, then the lookups *)

Lemma save_existing_resolves (db : Database) (user : User.t) (id : Z) :
  User.id user = Some id ->
  save db user
  = Resolve (user, update_user db (User.identity user) (User.nickname user)
                               (Some id)).
Proof.
  intros H. unfold save, isExistingUser. rewrite H. reflexivity.
Qed.

Lemma filter_map_same {A : Type} (p : A -> bool) (f : A -> A) (l : list A) :
  (forall x, p (f x) = p x) ->
  filter p (map f l) = map f (filter p l).
Proof.
  intros H. induction l as [|x l IH]; simpl; [reflexivity|].
  rewrite H. destruct (p x); simpl; congruence.
Qed.

Lemma update_keeps_id_active (identity nickname : string) (id : sql_param)
  (r : UsersRow.t) :
  UsersRow.id (update_user_row identity nickname id r) = UsersRow.id r /\
  UsersRow.active (update_user_row identity nickname id r) = UsersRow.active r.
Proof.
  unfold update_user_row.
  destruct (sql_eq (Some (UsersRow.id r)) id); split; reflexivity.
Qed.

Lemma model_of_updated_row (identity nickname : string) (id : Z)
  (r : UsersRow.t) :
  recordToModel (select_fieldNames
                   (update_user_row identity nickname (Some id) r))
  = renamed id identity nickname (recordToModel (select_fieldNames r)).
Proof.
  unfold update_user_row, renamed, sql_eq. simpl.
  destruct (UsersRow.id r =? id); reflexivity.
Qed.

Lemma models_after_update (p : UsersRow.t -> bool) (identity nickname : string)
  (id : Z) (rows : list UsersRow.t) :
  (forall x, p (update_user_row identity nickname (Some id) x) = p x) ->
  map recordToModel
      (map select_fieldNames
           (filter p (map (update_user_row identity nickname (Some id)) rows)))
  = map (renamed id identity nickname)
        (map recordToModel (map select_fieldNames (filter p rows))).
Proof.
  intros Hp. rewrite (filter_map_same _ _ _ Hp), !map_map.
  apply map_ext. intros r. apply model_of_updated_row.
Qed.

(** X7. After [save] of a user with an id, each lookup by id gives what
    it gave before with the identity and nickname replaced for that id:
    a lookup that failed still fails, no other user changes, and the
    user saved comes back with the [created] and [type] of its row, not
    those of the value that was saved.  [findAll] changes in the same
    way, user by user. *)
Theorem save_existing_then_lookup (db : Database) (user : User.t) (id : Z) :
  User.id user = Some id ->
  exists db' all,
    save db user = Resolve (user, db') /\
    (forall key,
        findById db' key
        = await (findById db key)
                (fun u => Resolve (renamed id (User.identity user)
                                           (User.nickname user) u))) /\
    findAll db = Resolve all /\
    findAll db'
    = Resolve (map (renamed id (User.identity user) (User.nickname user)) all).
Proof.
  intros Hid. eexists _, _.
  split; [apply save_existing_resolves; exact Hid|].
  split; [|split; [reflexivity|]].
  - intros key. unfold findById, query_users_by_id. simpl.
    rewrite filter_map_same.
    + destruct (filter _ (users db)) as [|x [|y rest]]; simpl; try reflexivity.
      rewrite model_of_updated_row. reflexivity.
    + intros x.
      destruct (update_keeps_id_active (User.identity user) (User.nickname user)
                  (Some id) x) as [-> ->].
      reflexivity.
  - unfold findAll, query_users_active. simpl.
    rewrite models_after_update; [reflexivity|].
    intros x.
    destruct (update_keeps_id_active (User.identity user) (User.nickname user)
                (Some id) x) as [_ ->].
    reflexivity.
Qed.

Lemma save_existing_then_lookup_witness :
  exists db',
    save example_db alicia = Resolve (alicia, db') /\
    findById db' 1
    = Resolve {| User.id := Some 1; User.identity := "alice@new.com";
                 User.nickname := "Alicia";
                 User.created := Some (new_Date 1600000000000);
                 User.type := 1 |} /\
    findById db' 2 = Reject (not_found_id 2).
Proof.
  destruct (save_existing_then_lookup example_db alicia 1 eq_refl)
    as (db' & all & Hsave & Hlookup & _).
  exists db'. split; [exact Hsave|]. split.
  - rewrite (Hlookup 1). reflexivity.
  - rewrite (Hlookup 2). reflexivity.
Defined.

(** X8. [save] of a user whose id no row has changes nothing in the store
    and still resolves to the value it was given: a missing row is not
    an error. *)
Theorem save_existing_missing_row (db : Database) (user : User.t) (id : Z) :
  User.id user = Some id ->
  Forall (fun r => UsersRow.id r <> id) (users db) ->
  save db user = Resolve (user, db).
Proof.
  intros Hid Hnone. rewrite (save_existing_resolves db user id Hid).
  do 2 f_equal. unfold update_user.
  assert (E : map (update_user_row (User.identity user) (User.nickname user)
                                   (Some id)) (users db) = users db).
  { induction Hnone as [|r rows Hr _ IH]; simpl; [reflexivity|].
    rewrite IH. f_equal. unfold update_user_row, sql_eq.
    apply Z.eqb_neq in Hr. rewrite Hr. reflexivity. }
  rewrite E. destruct db. reflexivity.
Qed.

Lemma save_existing_missing_row_witness :
  save example_db ghost = Resolve (ghost, example_db).
Proof.
  apply (save_existing_missing_row example_db ghost 9999 eq_refl).
  constructor; [discriminate|]. constructor; [discriminate|constructor].
Defined.

(** ** Rows that are not active, and the lookups among themselves *)

Lemma filter_drop_row {A : Type} (p : A -> bool) (before : list A) (r : A)
  (after : list A) :
  p r = false ->
  filter p (before ++ r :: after) = filter p (before ++ after).
Proof.
  intros H. rewrite !filter_app. simpl. rewrite H. reflexivity.
Qed.

(** X9. A row of [users] that is not active is as good as absent: with
    the row or without it, [findAll], [findById] and [findByIdentity]
    give the same answers, whatever the id and the identity of the row. *)
Theorem inactive_row_invisible (db db' : Database)
  (before : list UsersRow.t) (r : UsersRow.t) (after : list UsersRow.t) :
  users db = (before ++ r :: after)%list ->
  users db' = (before ++ after)%list ->
  (forall a b, identity_collation db' a b = identity_collation db a b) ->
  UsersRow.active r <> 1 ->
  findAll db = findAll db' /\
  (forall id, findById db id = findById db' id) /\
  (forall identity, findByIdentity db identity = findByIdentity db' identity).
Proof.
  intros Hrows Hrows' Hcollation Hinactive.
  apply Z.eqb_neq in Hinactive.
  split; [|split].
  - unfold findAll, query_users_active. rewrite Hrows, Hrows'.
    rewrite filter_drop_row by exact Hinactive. reflexivity.
  - intros id. unfold findById, query_users_by_id. rewrite Hrows, Hrows'.
    rewrite filter_drop_row by (rewrite Hinactive; reflexivity). reflexivity.
  - intros identity. unfold findByIdentity, query_users_by_identity.
    rewrite Hrows, Hrows'.
    rewrite filter_drop_row by (rewrite Hinactive; reflexivity).
    rewrite (filter_ext _ (fun r0 => (UsersRow.active r0 =? 1)
               && identity_collation db' (UsersRow.identity r0) identity)).
    + reflexivity.
    + intros a. rewrite Hcollation. reflexivity.
Qed.

Lemma active_row_found (db : Database) (r : UsersRow.t) :
  NoDup (map UsersRow.id (users db)) ->
  In r (users db) -> UsersRow.active r = 1 ->
  unique_match (active_with_id (UsersRow.id r)) (users db) r.
Proof.
  intros Hnodup Hin Hactive.
  apply in_split in Hin. destruct Hin as (before & after & Hrows).
  rewrite Hrows in Hnodup. rewrite map_app in Hnodup. simpl in Hnodup.
  apply NoDup_remove_2 in Hnodup.
  assert (Hother : forall l, (forall x, In x l ->
                                In (UsersRow.id x)
                                   (map UsersRow.id before
                                    ++ map UsersRow.id after)%list) ->
                             Forall (fun x => ~ active_with_id (UsersRow.id r) x) l).
  { intros l Hl. apply Forall_forall. intros x Hx [_ Hid].
    apply Hnodup. rewrite <- Hid. apply Hl. exact Hx. }
  exists before, after. split; [exact Hrows|].
  split; [split; [exact Hactive | reflexivity]|].
  split; apply Hother; intros x Hx; apply in_or_app.
  - left. apply in_map. exact Hx.
  - right. apply in_map. exact Hx.
Qed.

Lemma single_from_rows (p : UsersRow.t -> bool) (rows : list UsersRow.t)
  (e : error) (u : User.t) :
  match map select_fieldNames (filter p rows) with
  | [user] => Resolve (recordToModel user)
  | _ => Reject e
  end = Resolve u ->
  exists r, In r rows /\ p r = true /\ u = recordToModel (select_fieldNames r).
Proof.
  intros H.
  destruct (filter p rows) as [|r [|y rest]] eqn:E; simpl in H;
    try discriminate H.
  injection H as <-.
  assert (Hin : In r (filter p rows)) by (rewrite E; left; reflexivity).
  apply filter_In in Hin. exists r. intuition.
Qed.

(** X10. The lookups agree with the list.  A user that [findById] or
    [findByIdentity] gives is one of the users of [findAll], with the id
    asked for; and when no two rows share an id, every user of [findAll]
    is the one that [findById] gives for its id. *)
Theorem lookups_agree_with_findAll (db : Database) :
  exists all,
    findAll db = Resolve all /\
    (forall id u, findById db id = Resolve u ->
                  In u all /\ User.id u = Some id) /\
    (forall identity u, findByIdentity db identity = Resolve u -> In u all) /\
    (NoDup (map UsersRow.id (users db)) ->
     forall u, In u all ->
               exists id, User.id u = Some id /\ findById db id = Resolve u).
Proof.
  eexists. split; [reflexivity|].
  assert (Hall : forall r, In r (users db) -> UsersRow.active r = 1 ->
            In (recordToModel (select_fieldNames r))
               (map recordToModel (query_users_active db))).
  { intros r Hin Hactive. unfold query_users_active.
    apply in_map, in_map, filter_In. split; [exact Hin|].
    apply Z.eqb_eq. exact Hactive. }
  split; [|split].
  - intros id u H. unfold findById, query_users_by_id in H.
    apply single_from_rows in H. destruct H as (r & Hin & Hr & ->).
    apply where_active_id in Hr. destruct Hr as [Hactive Hid].
    split; [apply Hall; assumption|]. simpl. rewrite Hid. reflexivity.
  - intros identity u H. unfold findByIdentity, query_users_by_identity in H.
    apply single_from_rows in H. destruct H as (r & Hin & Hr & ->).
    apply where_active_identity in Hr. destruct Hr as [Hactive _].
    apply Hall; assumption.
  - intros Hnodup u Hu. unfold query_users_active in Hu.
    rewrite map_map in Hu. apply in_map_iff in Hu.
    destruct Hu as (r & <- & Hin). apply filter_In in Hin.
    destruct Hin as [Hin Hactive]. apply Z.eqb_eq in Hactive.
    exists (UsersRow.id r). split; [reflexivity|].
    apply findById_unique. apply active_row_found; assumption.
Qed.

Lemma lookups_agree_with_findAll_witness :
  exists all,
    findAll example_db = Resolve all /\
    In alice all /\
    findById example_db 1 = Resolve alice.
Proof.
  destruct (lookups_agree_with_findAll example_db)
    as (all & Hall & Hid & _ & Hback).
  exists all. split; [exact Hall|].
  destruct (Hid 1 alice eq_refl) as [Hin _].
  split; [exact Hin|].
  destruct (Hback ltac:(repeat constructor; simpl; intuition discriminate)
              alice Hin)
    as (id & Hsome & Hfound).
  injection Hsome as <-. exact Hfound.
Defined.

Lemma inactive_row_invisible_witness :
  findAll example_db = Resolve [alice] /\
  findById example_db 2 = Reject (not_found_id 2) /\
  findByIdentity example_db "bob@example.com"
  = Reject (not_found_identity "bob@example.com").
Proof.
  destruct (inactive_row_invisible example_db
              {| users := [alice_row];
                 user_passwords := [];
                 user_totp := [];
                 users_auto_increment := 3;
                 users_active_default := 1;
                 identity_collation := String.eqb;
                 unix_timestamp := 1700000000 |}
              [alice_row] bob_row [] eq_refl eq_refl
              (fun a b => eq_refl) ltac:(discriminate))
    as (Hall & Hid & Hidentity).
  split; [rewrite Hall; reflexivity|].
  split; [rewrite (Hid 2); reflexivity|].
  rewrite (Hidentity "bob@example.com"). reflexivity.
Defined.

(** ** What the writes keep *)

Lemma ids_after_update (identity nickname : string) (id : sql_param)
  (rows : list UsersRow.t) :
  map UsersRow.id (map (update_user_row identity nickname id) rows)
  = map UsersRow.id rows.
Proof.
  rewrite map_map. apply map_ext. intros r.
  apply update_keeps_id_active.
Qed.

(** X11. [save] keeps [users.id] a key: when no two rows share an id and
    the counter of the table is above every id, the same holds after
    [save], of a new user as of an existing one. *)
Theorem save_keeps_primary_key (db : Database) (user : User.t) :
  primary_key db ->
  exists u db', save db user = Resolve (u, db') /\ primary_key db'.
Proof.
  intros [Hnodup Hbelow].
  destruct (User.id user) as [id|] eqn:Hid.
  - eexists _, _. split; [apply (save_existing_resolves db user id Hid)|].
    unfold primary_key, ids_below_counter. simpl. split.
    + rewrite ids_after_update. exact Hnodup.
    + apply Forall_forall. intros r Hr.
      apply in_map_iff in Hr. destruct Hr as (r0 & <- & Hr0).
      destruct (update_keeps_id_active (User.identity user)
                  (User.nickname user) (Some id) r0) as [-> _].
      unfold ids_below_counter in Hbelow. rewrite Forall_forall in Hbelow.
      apply Hbelow. exact Hr0.
  - eexists _, _. split; [apply (save_new_resolves db user Hid)|].
    unfold primary_key, ids_below_counter. simpl. split.
    + rewrite map_app. simpl. apply NoDup_app.
      * exact Hnodup.
      * constructor; [intros []|constructor].
      * intros a Ha [<- | []]. revert Ha. apply fresh_counter. exact Hbelow.
    + apply Forall_app. split.
      * eapply Forall_impl; [|exact Hbelow]. simpl. intros r Hr. lia.
      * constructor; [simpl; lia|constructor].
Qed.

Lemma example_db_primary_key : primary_key example_db.
Proof.
  split.
  - simpl. constructor; [simpl; intuition discriminate|].
    constructor; [intros []|constructor].
  - repeat constructor.
Defined.

Lemma save_keeps_primary_key_witness :
  exists u db', save example_db new_carol = Resolve (u, db') /\ primary_key db'.
Proof.
  exact (save_keeps_primary_key example_db new_carol example_db_primary_key).
Defined.

Section Frames.

Context {bcrypt : Bcrypt} {otplib : Otplib}.

Lemma credentials_of_other (db : Database) (owner other : sql_param)
  (hash : string) :
  sql_eq owner other = false ->
  credentials_of other (user_passwords (insert_password db owner hash))
  = credentials_of other (user_passwords db).
Proof.
  intros H. simpl. rewrite credentials_of_app. simpl. rewrite H.
  apply app_nil_r.
Qed.

Lemma validatePassword_credentials (db db' : Database) (u u' : User.t)
  (candidate : string) :
  credentials_of (User.id u) (user_passwords db)
  = credentials_of (User.id u') (user_passwords db') ->
  validatePassword db u candidate = validatePassword db' u' candidate.
Proof.
  intros H. rewrite <- !credentials_of_query in H.
  unfold validatePassword.
  set (l := map PasswordRow.password (query_passwords db (User.id u))) in *.
  set (l' := map PasswordRow.password (query_passwords db' (User.id u'))) in *.
  clearbody l l'. revert l' H.
  induction l as [|h l IH]; intros [|h' l'] H; simpl in H; try discriminate H.
  - reflexivity.
  - injection H as Hh Hl. simpl. rewrite Hh, (IH l' Hl). reflexivity.
Qed.

End Frames.

(** X12. [createPassword] touches one thing.  When hashing fails the
    call fails with the same error and there is no new store.  When it
    gives a hash, the password verification of every user with another
    id is what it was, and so are all verifications of one-time codes
    and all lookups of users. *)
Theorem createPassword_frame {bcrypt : Bcrypt} {otplib : Otplib}
  (salt : string) (db : Database) (user : User.t) (password : string) :
  (forall e, bcrypt_hash salt password 12 = Reject e ->
             createPassword salt db user password = Reject e) /\
  (forall hash, bcrypt_hash salt password 12 = Resolve hash ->
     exists db',
       createPassword salt db user password = Resolve db' /\
       (forall other candidate,
           User.id other <> User.id user ->
           validatePassword db' other candidate
           = validatePassword db other candidate) /\
       (forall other token,
           validateTotp db' other token = validateTotp db other token) /\
       findAll db' = findAll db /\
       (forall id, findById db' id = findById db id) /\
       (forall identity, findByIdentity db' identity = findByIdentity db identity)).
Proof.
  split.
  - intros e H. unfold createPassword. rewrite H. reflexivity.
  - intros hash H. eexists.
    split; [unfold createPassword; rewrite H; reflexivity|].
    split; [|repeat split].
    intros other candidate Hne.
    apply validatePassword_credentials. apply credentials_of_other.
    unfold sql_eq.
    destruct (User.id user) as [i|], (User.id other) as [j|]; try reflexivity.
    apply Z.eqb_neq. intros E. apply Hne. rewrite E. reflexivity.
Qed.

Lemma createPassword_frame_witness :
  exists db',
    @createPassword plain_bcrypt "salt" passwords_db bob "NewPass" = Resolve db' /\
    @validatePassword plain_bcrypt db' alice "Secr3tPass!" = Resolve true.
Proof.
  destruct (@createPassword_frame plain_bcrypt digits_otplib "salt" passwords_db
              bob "NewPass") as [_ Hframe].
  destruct (Hframe "$2b$NewPass" eq_refl) as (db' & Hcreate & Hothers & _).
  exists db'. split; [exact Hcreate|].
  rewrite (Hothers alice "Secr3tPass!"); [reflexivity | discriminate].
Defined.

(** [save] never touches a credential. *)
Lemma save_credentials_frame {bcrypt : Bcrypt} {otplib : Otplib}
  (db : Database) (user : User.t) :
  exists u db',
    save db user = Resolve (u, db') /\
    (forall who candidate,
        validatePassword db' who candidate = validatePassword db who candidate) /\
    (forall who token,
        validateTotp db' who token = validateTotp db who token).
Proof.
  destruct (User.id user) as [id|] eqn:Hid.
  - eexists _, _. split; [apply (save_existing_resolves db user id Hid)|].
    repeat split.
  - eexists _, _. split; [apply (save_new_resolves db user Hid)|].
    repeat split.
Qed.

(** X13. A password outlives every [save]: once [createPassword] has
    stored it for a user, it verifies for that user after any later
    [save], be it of a new user or of a change of the identity and
    nickname of this very user; [save] leaves every verification, of
    passwords and of one-time codes, as it was. *)
Theorem password_survives_save {bcrypt : Bcrypt} {otplib : Otplib}
  {contract : BcryptContract bcrypt}
  (db : Database) (user : User.t) (id : Z) (salt password hash : string)
  (saved : User.t) :
  User.id user = Some id ->
  bcrypt_hash salt password 12 = Resolve hash ->
  exists db1 u db2,
    createPassword salt db user password = Resolve db1 /\
    save db1 saved = Resolve (u, db2) /\
    validatePassword db2 user password = Resolve true /\
    (forall who candidate,
        validatePassword db2 who candidate = validatePassword db1 who candidate) /\
    (forall who token,
        validateTotp db2 who token = validateTotp db1 who token).
Proof.
  intros Hid Hhash.
  set (db1 := insert_password db (User.id user) hash).
  destruct (save_credentials_frame db1 saved) as (u & db2 & Hsave & Hpw & Htotp).
  exists db1, u, db2.
  split; [apply createPassword_resolves; exact Hhash|].
  split; [exact Hsave|].
  split; [|split; assumption].
  rewrite Hpw. apply (validatePassword_In _ _ _ hash).
  - subst db1. rewrite Hid, credentials_after_insert.
    apply in_or_app. right. left. reflexivity.
  - exact (compare_hash _ _ _ _ Hhash).
Qed.

Lemma password_survives_save_witness :
  exists db1 u db2,
    @createPassword total_bcrypt "salt" example_db alice "Secr3tPass!"
    = Resolve db1 /\
    save db1 alicia = Resolve (u, db2) /\
    @validatePassword total_bcrypt db2 alicia "Secr3tPass!" = Resolve true.
Proof.
  destruct (@password_survives_save total_bcrypt digits_otplib
              total_bcrypt_contract example_db alicia 1 "salt" "Secr3tPass!"
              "$2b$Secr3tPass!" alicia eq_refl eq_refl)
    as (db1 & u & db2 & Hcreate & Hsave & Hverify & _).
  exists db1, u, db2. repeat split; assumption.
Defined.

Section AnyOrder.

Context {bcrypt : Bcrypt} {contract : BcryptContract bcrypt}.

Lemma validatePassword_resolves (db : Database) (user : User.t)
  (candidate : string) :
  exists b, validatePassword db user candidate = Resolve b.
Proof.
  unfold validatePassword.
  induction (map PasswordRow.password (query_passwords db (User.id user)))
    as [|h l IH]; simpl.
  - exists false. reflexivity.
  - destruct (compare_resolves candidate (Buffer_toString h)) as [b Hb].
    rewrite Hb. simpl. destruct b; [exists true; reflexivity | exact IH].
Qed.

Lemma validatePassword_true_iff (db : Database) (user : User.t)
  (candidate : string) :
  validatePassword db user candidate = Resolve true <->
  exists h, In h (credentials_of (User.id user) (user_passwords db)) /\
            bcrypt_compare candidate h = Resolve true.
Proof.
  split.
  - intros H. apply validatePassword_true_inv in H.
    destruct H as (before & h & after & Hsplit & _ & Hh).
    exists h. split; [|exact Hh].
    rewrite Hsplit. apply in_or_app. right. left. reflexivity.
  - intros (h & Hin & Hh). apply (validatePassword_In _ _ _ h); assumption.
Qed.

End AnyOrder.

(** X14. With a [compare] that answers on every hash, the verification
    of a password never fails and does not depend on the order or the
    number of copies of the rows: two stores that hold the same hashes
    for a user give the same answer, and the answer is [true] exactly
    when some stored hash of the user matches. *)
Theorem validatePassword_any_order {bcrypt : Bcrypt}
  {contract : BcryptContract bcrypt}
  (db db' : Database) (user : User.t) (candidate : string) :
  (forall h, In h (credentials_of (User.id user) (user_passwords db)) <->
             In h (credentials_of (User.id user) (user_passwords db'))) ->
  validatePassword db user candidate = validatePassword db' user candidate /\
  (exists b, validatePassword db user candidate = Resolve b) /\
  (validatePassword db user candidate = Resolve true <->
   exists h, In h (credentials_of (User.id user) (user_passwords db)) /\
             bcrypt_compare candidate h = Resolve true).
Proof.
  intros Hsame.
  split; [|split; [apply validatePassword_resolves
                  | apply validatePassword_true_iff]].
  destruct (validatePassword_resolves db user candidate) as [b Hb].
  destruct (validatePassword_resolves db' user candidate) as [b' Hb'].
  rewrite Hb, Hb'. f_equal.
  destruct b, b'; try reflexivity.
  - apply validatePassword_true_iff in Hb. destruct Hb as (h & Hin & Hh).
    assert (E : validatePassword db' user candidate = Resolve true).
    { apply validatePassword_true_iff.
      exists h. split; [apply Hsame; exact Hin | exact Hh]. }
    rewrite Hb' in E. discriminate E.
  - apply validatePassword_true_iff in Hb'. destruct Hb' as (h & Hin & Hh).
    assert (E : validatePassword db user candidate = Resolve true).
    { apply validatePassword_true_iff.
      exists h. split; [apply Hsame; exact Hin | exact Hh]. }
    rewrite Hb in E. discriminate E.
Qed.

Lemma validatePassword_any_order_witness :
  @validatePassword total_bcrypt ordered_db alice "OldPass"
  = @validatePassword total_bcrypt shuffled_db alice "OldPass".
Proof.
  assert (Hsame : forall h,
             In h (credentials_of (User.id alice) (user_passwords ordered_db)) <->
             In h (credentials_of (User.id alice) (user_passwords shuffled_db))).
  { intros h. simpl. intuition. }
  exact (proj1 (@validatePassword_any_order total_bcrypt total_bcrypt_contract
                  ordered_db shuffled_db alice "OldPass" Hsame)).
Defined.

(** ** Saving again *)

Lemma NoDup_map_In_eq {A B : Type} (f : A -> B) (l : list A) (x y : A) :
  NoDup (map f l) -> In x l -> In y l -> f x = f y -> x = y.
Proof.
  induction l as [|a l IH]; simpl; intros Hnodup Hx Hy Hf; [contradiction|].
  inversion Hnodup as [|b bs Hnotin Hrest]; subst.
  destruct Hx as [-> | Hx], Hy as [-> | Hy].
  - reflexivity.
  - exfalso. apply Hnotin. rewrite Hf. apply in_map. exact Hy.
  - exfalso. apply Hnotin. rewrite <- Hf. apply in_map. exact Hx.
  - apply IH; assumption.
Qed.

Lemma update_user_same_users (db : Database) (identity nickname : string)
  (id : sql_param) :
  map (update_user_row identity nickname id) (users db) = users db ->
  update_user db identity nickname id = db.
Proof.
  intros H. unfold update_user. rewrite H. destruct db. reflexivity.
Qed.

(** X15. Saving a user as it was found changes nothing: when no two rows
    share an id, [save] of the value [findById] gave resolves to that
    value and leaves the store as it is. *)
Theorem save_of_found_user (db : Database) (id : Z) (u : User.t) :
  NoDup (map UsersRow.id (users db)) ->
  findById db id = Resolve u ->
  save db u = Resolve (u, db).
Proof.
  intros Hnodup Hfound. unfold findById, query_users_by_id in Hfound.
  apply single_from_rows in Hfound. destruct Hfound as (r & Hin & _ & ->).
  rewrite (save_existing_resolves db (recordToModel (select_fieldNames r))
             (UsersRow.id r) eq_refl).
  do 2 f_equal. apply update_user_same_users. simpl.
  rewrite <- (map_id (users db)) at 2. apply map_ext_in.
  intros x Hx. unfold update_user_row, sql_eq.
  destruct (Z.eqb_spec (UsersRow.id x) (UsersRow.id r)) as [E|_];
    [|reflexivity].
  rewrite (NoDup_map_In_eq UsersRow.id (users db) x r Hnodup Hx Hin E).
  destruct r. reflexivity.
Qed.

Lemma save_of_found_user_witness :
  save example_db alice = Resolve (alice, example_db).
Proof.
  apply (save_of_found_user example_db 1 alice); [|reflexivity].
  simpl. constructor; [simpl; intuition discriminate|].
  constructor; [intros []|constructor].
Defined.

Lemma update_user_row_twice (identity nickname identity' nickname' : string)
  (id : sql_param) (r : UsersRow.t) :
  update_user_row identity' nickname' id
    (update_user_row identity nickname id r)
  = update_user_row identity' nickname' id r.
Proof.
  unfold update_user_row, sql_eq. destruct id as [i|]; [|reflexivity].
  destruct (UsersRow.id r =? i) eqn:E; simpl; rewrite E; reflexivity.
Qed.

Lemma update_user_row_swap (identity1 nickname1 identity2 nickname2 : string)
  (id1 id2 : Z) (r : UsersRow.t) :
  id1 <> id2 ->
  update_user_row identity2 nickname2 (Some id2)
    (update_user_row identity1 nickname1 (Some id1) r)
  = update_user_row identity1 nickname1 (Some id1)
      (update_user_row identity2 nickname2 (Some id2) r).
Proof.
  intros Hne. unfold update_user_row, sql_eq. simpl.
  destruct (Z.eqb_spec (UsersRow.id r) id1) as [E1|E1],
           (Z.eqb_spec (UsersRow.id r) id2) as [E2|E2]; simpl.
  - exfalso. apply Hne. rewrite <- E1, <- E2. reflexivity.
  - apply Z.eqb_eq in E1. apply Z.eqb_neq in E2. rewrite ?E1, ?E2. reflexivity.
  - apply Z.eqb_neq in E1. apply Z.eqb_eq in E2. rewrite ?E1, ?E2. reflexivity.
  - apply Z.eqb_neq in E1. apply Z.eqb_neq in E2. rewrite ?E1, ?E2. reflexivity.
Qed.

(** X16. Of two [save]s of users with the same id the second decides:
    the store is the one the second alone would have made.  So saving a
    user twice is saving it once. *)
Theorem save_existing_last_wins (db : Database) (first second : User.t) (id : Z) :
  User.id first = Some id ->
  User.id second = Some id ->
  exists db1 db2,
    save db first = Resolve (first, db1) /\
    save db1 second = Resolve (second, db2) /\
    save db second = Resolve (second, db2) /\
    save db2 second = Resolve (second, db2).
Proof.
  intros H1 H2. eexists _, _.
  split; [apply (save_existing_resolves db first id H1)|].
  split; [apply (save_existing_resolves _ second id H2)|].
  split.
  - rewrite (save_existing_resolves db second id H2). do 2 f_equal.
    unfold update_user. simpl. f_equal. rewrite map_map.
    apply map_ext. intros r. symmetry. apply update_user_row_twice.
  - rewrite (save_existing_resolves _ second id H2). do 2 f_equal.
    unfold update_user. simpl. f_equal. rewrite !map_map.
    apply map_ext. intros r. rewrite !update_user_row_twice. reflexivity.
Qed.

Lemma save_existing_last_wins_witness :
  exists db1 db2,
    save example_db alice = Resolve (alice, db1) /\
    save db1 alicia = Resolve (alicia, db2) /\
    save example_db alicia = Resolve (alicia, db2).
Proof.
  destruct (save_existing_last_wins example_db alice alicia 1 eq_refl eq_refl)
    as (db1 & db2 & Hfirst & Hsecond & Halone & _).
  exists db1, db2. repeat split; assumption.
Defined.

(** X17. [save]s of users with different ids do not disturb each other:
    in either order they leave the same store. *)
Theorem save_existing_commute (db : Database) (u1 u2 : User.t) (id1 id2 : Z) :
  User.id u1 = Some id1 ->
  User.id u2 = Some id2 ->
  id1 <> id2 ->
  exists db1 db2 db12,
    save db u1 = Resolve (u1, db1) /\
    save db1 u2 = Resolve (u2, db12) /\
    save db u2 = Resolve (u2, db2) /\
    save db2 u1 = Resolve (u1, db12).
Proof.
  intros H1 H2 Hne. eexists _, _, _.
  split; [apply (save_existing_resolves db u1 id1 H1)|].
  split; [apply (save_existing_resolves _ u2 id2 H2)|].
  split; [apply (save_existing_resolves db u2 id2 H2)|].
  rewrite (save_existing_resolves _ u1 id1 H1). do 2 f_equal.
  unfold update_user. simpl. f_equal. rewrite !map_map.
  apply map_ext. intros r. symmetry. apply update_user_row_swap. exact Hne.
Qed.

Lemma save_existing_commute_witness :
  exists db1 db2 db12,
    save example_db alicia = Resolve (alicia, db1) /\
    save db1 bob = Resolve (bob, db12) /\
    save example_db bob = Resolve (bob, db2) /\
    save db2 alicia = Resolve (alicia, db12).
Proof.
  apply (save_existing_commute example_db alicia bob 1 2 eq_refl eq_refl).
  discriminate.
Defined.

(** ** An object without an id *)

Lemma sql_eq_null (column : option Z) : sql_eq column None = false.
Proof. destruct column; reflexivity. Qed.

(** X18. For an object without an id nothing verifies: a parameter that
    is [undefined] reaches the store as [NULL], which equals no
    [user_id], so [validatePassword] and [validateTotp] resolve to
    [false] on every store, without a call of either library. *)
Theorem no_id_no_verification {bcrypt : Bcrypt} {otplib : Otplib}
  (db : Database) (user : User.t) (candidate : string) :
  isExistingUser user = false ->
  validatePassword db user candidate = Resolve false /\
  validateTotp db user candidate = Resolve false.
Proof.
  unfold isExistingUser. intros H.
  destruct (User.id user) as [id|] eqn:Hid; [discriminate H|].
  split.
  - apply validatePassword_miss. rewrite Hid.
    induction (user_passwords db) as [|r rows IH]; simpl; [constructor|].
    rewrite sql_eq_null. exact IH.
  - unfold validateTotp, query_totp. rewrite Hid.
    induction (user_totp db) as [|r rows IH]; simpl; [reflexivity|].
    rewrite sql_eq_null. exact IH.
Qed.

Lemma no_id_no_verification_witness :
  @validatePassword plain_bcrypt passwords_db new_carol "Secr3tPass!"
  = Resolve false /\
  @validateTotp digits_otplib totp_db new_carol "123456" = Resolve false.
Proof.
  split.
  - exact (proj1 (@no_id_no_verification plain_bcrypt digits_otplib
                    passwords_db new_carol "Secr3tPass!" eq_refl)).
  - exact (proj2 (@no_id_no_verification plain_bcrypt digits_otplib
                    totp_db new_carol "123456" eq_refl)).
Defined.

Lemma hal_authenticated_as_witness :
  object_get (_links (@hal nat registration_closed "0.1" alice false 0%nat))
             "logout"
  = object_get (_links (@hal nat registration_closed "0.1" bob false 0%nat))
               "logout".
Proof.
  destruct (@hal_authenticated_as nat registration_closed "0.1" alice bob
              false 0%nat) as (_ & _ & Hothers).
  apply (Hothers "logout"). discriminate.
Defined.
